(** * Setup assistant (init.py): model and verified properties

    The script is an interactive menu that shells out to [python -m venv],
    [pip] and [pip-compile].  Everything it does is an ordered sequence of
    console writes, file-system probes ([os.path.isdir], [os.path.exists])
    and [subprocess.run] calls.  The model keeps exactly these three kinds
    of effect:

    - the host (interpreter globals, file system, what a child process
      does) is an interface, [Host], with one law about paths;
    - every function of the script is a computation in a small
      state-and-log monad [M]: it threads the host state and returns the
      chronological list of events (prints, prompts, process runs) it
      produced;
    - Python [str] values are byte strings holding the UTF-8 encoding.

    Asynchronous interrupts (KeyboardInterrupt, which is not an
    [Exception]) are outside the model. *)

From Stdlib Require Import ZArith Ascii String List Bool Lia.
From stdpp Require Import base option strings gmap.

Import ListNotations.
Open Scope string_scope.
Open Scope list_scope.

(* string concatenation of literals should compute under [simpl] *)
#[local] Arguments String.append !_ _ / : simpl nomatch.

(** ** Python strings *)

Module Py.

Definition nl : string := String "010"%char "".

Definition chars (s : string) : list ascii := list_ascii_of_string s.
Definition text (l : list ascii) : string := string_of_list_ascii l.

(** [sep.join(parts)] *)
Fixpoint join (sep : string) (parts : list string) : string :=
  match parts with
  | [] => ""
  | [p] => p
  | p :: rest => p ++ sep ++ join sep rest
  end.

(** [s * n] *)
Fixpoint repeat (s : string) (n : nat) : string :=
  match n with
  | O => ""
  | S k => s ++ repeat s k
  end.

(** Truth value of a [str]: non-empty. *)
Definition truthy (s : string) : bool :=
  match s with
  | EmptyString => false
  | String _ _ => true
  end.

(** [s.startswith(p)] *)
Fixpoint startswith (p s : string) : bool :=
  match p, s with
  | EmptyString, _ => true
  | String a p', String b s' => Ascii.eqb a b && startswith p' s'
  | String _ _, EmptyString => false
  end.

(** Whitespace, as [str.strip()] with no argument sees it: the code
    points U+0009..000D, U+001C..001F, U+0020, U+0085, U+00A0, U+1680,
    U+2000..200A, U+2028, U+2029, U+202F, U+205F and U+3000.  On the
    UTF-8 bytes these are the one-byte sequences below and a few two-
    and three-byte sequences. *)
Definition space_byte (c : ascii) : bool :=
  let n := N_of_ascii c in
  ((9 <=? n) && (n <=? 13) || (28 <=? n) && (n <=? 32))%N.

(** The third byte of U+2000..200A, U+2028, U+2029 and U+202F, which
    all start with the bytes E2 80. *)
Definition general_punctuation_space (c : N) : bool :=
  ((128 <=? c) && (c <=? 138) || (c =? 168) || (c =? 169) || (c =? 175))%N.

(** Number of bytes of the whitespace code point at the head of [l]
    (0 when [l] does not start with one). *)
Definition space_head (l : list ascii) : nat :=
  match List.map N_of_ascii l with
  | [] => 0%nat
  | c :: rest =>
      if space_byte (ascii_of_N c) then 1%nat
      else
        match c, rest with
        | 194, 133 :: _ | 194, 160 :: _ => 2%nat
        | 225, 154 :: 128 :: _ => 3%nat
        | 226, 128 :: d :: _ =>
            if general_punctuation_space d then 3%nat else 0%nat
        | 226, 129 :: 159 :: _ => 3%nat
        | 227, 128 :: 128 :: _ => 3%nat
        | _, _ => 0%nat
        end
  end%N.

(** The same, reading from the end: [l] is the reversed byte list. *)
Definition space_last (l : list ascii) : nat :=
  match List.map N_of_ascii l with
  | [] => 0%nat
  | c :: rest =>
      if space_byte (ascii_of_N c) then 1%nat
      else
        match c, rest with
        | 133, 194 :: _ | 160, 194 :: _ => 2%nat
        | 128, 154 :: 225 :: _ => 3%nat
        | 159, 129 :: 226 :: _ => 3%nat
        | 128, 128 :: 227 :: _ => 3%nat
        | d, 128 :: 226 :: _ =>
            if general_punctuation_space d then 3%nat else 0%nat
        | _, _ => 0%nat
        end
  end%N.

(** Drop whitespace code points from the head while there are any; the
    fuel bounds the number of rounds by the number of bytes. *)
Fixpoint drop_spaces (head : list ascii -> nat) (fuel : nat)
    (l : list ascii) : list ascii :=
  match fuel with
  | O => l
  | S k =>
      match head l with
      | O => l
      | n => drop_spaces head k (skipn n l)
      end
  end.

Definition lstrip_bytes (l : list ascii) : list ascii :=
  drop_spaces space_head (List.length l) l.

Definition rstrip_bytes (l : list ascii) : list ascii :=
  rev (drop_spaces space_last (List.length l) (rev l)).

(** [s.strip()] *)
Definition strip (s : string) : string :=
  text (rstrip_bytes (lstrip_bytes (chars s))).

End Py.

(** ** [os.path] for the two path flavours

    [posixpath] on every platform but Windows, [ntpath] there.  The model
    covers components without a drive letter or UNC prefix, which is all
    the script ever joins. *)

Module OsPath.

Inductive flavour := Posix | NT.

Definition sep (fl : flavour) : string :=
  match fl with Posix => "/" | NT => "\" end.

Definition is_sep (fl : flavour) (c : ascii) : bool :=
  match fl with
  | Posix => Ascii.eqb c "/"
  | NT => Ascii.eqb c "\" || Ascii.eqb c "/"
  end.

Definition starts_with_sep (fl : flavour) (p : string) : bool :=
  match p with
  | String c _ => is_sep fl c
  | EmptyString => false
  end.

Definition ends_with_sep (fl : flavour) (p : string) : bool :=
  match rev (Py.chars p) with
  | c :: _ => is_sep fl c
  | [] => false
  end.

(** One round of the loop of [join]: an absolute component restarts the
    path, otherwise it is appended, with a separator unless the path so
    far is empty or already ends with one. *)
Definition join2 (fl : flavour) (path b : string) : string :=
  if starts_with_sep fl b then b
  else if negb (Py.truthy path) || ends_with_sep fl path then path ++ b
  else path ++ sep fl ++ b.

(** [os.path.join(a, *p)] *)
Definition join (fl : flavour) (a : string) (p : list string) : string :=
  fold_left (join2 fl) p a.

Fixpoint drop_while (f : ascii -> bool) (l : list ascii) : list ascii :=
  match l with
  | c :: l' => if f c then drop_while f l' else l
  | [] => []
  end.

(** [os.path.dirname(p)]: everything up to and including the last
    separator, with trailing separators removed unless that leaves
    nothing but separators. *)
Definition dirname (fl : flavour) (p : string) : string :=
  let head := drop_while (fun c => negb (is_sep fl c)) (rev (Py.chars p)) in
  if forallb (is_sep fl) head then Py.text (rev head)
  else Py.text (rev (drop_while (fun c => is_sep fl c) head)).

End OsPath.

(** ** The host: interpreter globals, file system, child processes *)

(** The keyword arguments of [subprocess.run] the script uses. *)
Record run_args := RunArgs {
  argv : list string;
  check : bool;
  text_mode : bool;
  capture_output : bool;
  timeout : Z
}.

(** What launching a child process can come to: it ran and exited, the
    executable was not found, the time limit passed, or something else
    went wrong ([text] is [str(e)] of that exception). *)
Inductive launch :=
| Exited (returncode : Z) (stdout stderr : string)
| NoSuchExecutable
| TimeLimit
| Fault (text : string).

Class Host (St : Type) := {
  sys_platform : string;
  sys_executable : string;
  os_path_isdir : St -> string -> bool;
  os_path_exists : St -> string -> bool;
  popen : run_args -> St -> launch * St;
  (** a path below [d] can only exist when [d] is a directory *)
  exists_below_dir : forall (s : St) (d p : string),
    d <> "" ->
    os_path_exists s (d ++ OsPath.sep
        (if String.eqb sys_platform "win32" then OsPath.NT else OsPath.Posix)
        ++ p) = true ->
    os_path_isdir s d = true
}.

(** ** Events and the monad of the script *)

Inductive event :=
| Print (line : string)       (* [print(line)] *)
| Prompt (text : string)      (* the prompt written by [input(text)] *)
| Run (a : run_args).         (* a call of [subprocess.run] *)

Definition M (St A : Type) : Type := St -> A * St * list event.

Global Instance M_ret {St} : MRet (M St) := fun A (a : A) s => (a, s, []).

Global Instance M_bind {St} : MBind (M St) := fun A B (k : A -> M St B) m s =>
  let '(a, s1, l1) := m s in
  let '(b, s2, l2) := k a s1 in
  (b, s2, l1 ++ l2).

Definition value {St A} (r : A * St * list event) : A := r.1.1.
Definition final {St A} (r : A * St * list event) : St := r.1.2.
Definition events {St A} (r : A * St * list event) : list event := r.2.

(** The commands run, in order. *)
Fixpoint runs (l : list event) : list (list string) :=
  match l with
  | [] => []
  | Run a :: l' => argv a :: runs l'
  | _ :: l' => runs l'
  end.

(** The lines printed, in order. *)
Fixpoint printed (l : list event) : list string :=
  match l with
  | [] => []
  | Print s :: l' => s :: printed l'
  | _ :: l' => printed l'
  end.

(** Python exceptions [subprocess.run] raises, by the class the handlers
    of the script tell apart. *)
Inductive exception :=
| CalledProcessError (returncode : Z) (stdout stderr : string)
| FileNotFoundError
| TimeoutExpired
| OtherException (text : string).

Record CompletedProcess := Completed {
  returncode : Z;
  stdout : string;
  stderr : string
}.

Section Script.

Context {St : Type} {host : Host St}.

Definition print (line : string) : M St unit :=
  fun s => (tt, s, [Print line]).

Definition prompt (text : string) : M St unit :=
  fun s => (tt, s, [Prompt text]).

Definition isdir (p : string) : M St bool :=
  fun s => (os_path_isdir s p, s, []).

Definition exists_ (p : string) : M St bool :=
  fun s => (os_path_exists s p, s, []).

(** [subprocess.run(argv, check=..., ...)]: with [check] a non-zero exit
    status is raised as [CalledProcessError]. *)
Definition subprocess_run (a : run_args)
    : M St (CompletedProcess + exception) :=
  fun s =>
    let '(r, s') := popen a s in
    (match r with
     | Exited rc out err =>
         if check a && negb (rc =? 0)%Z
         then inr (CalledProcessError rc out err)
         else inl (Completed rc out err)
     | NoSuchExecutable => inr FileNotFoundError
     | TimeLimit => inr TimeoutExpired
     | Fault t => inr (OtherException t)
     end, s', [Run a]).

Definition win32 : bool := String.eqb sys_platform "win32".

Definition os_path : OsPath.flavour :=
  if win32 then OsPath.NT else OsPath.Posix.

(** *** Virtual environment configuration *)

Definition VENV_DIR : string := ".venv".

Definition obtener_python_venv : string :=
  if win32 then OsPath.join os_path VENV_DIR ["Scripts"; "python.exe"]
  else OsPath.join os_path VENV_DIR ["bin"; "python"].

Definition obtener_pip_venv : list string :=
  [obtener_python_venv; "-m"; "pip"].

(** *** Utility functions *)

Definition ejecutar_comando (comando : list string)
    (success_message error_message : string) : M St bool :=
  let command_str := Py.join " " comando in
  print (Py.nl ++ "🚀 Executing: " ++ command_str);;
  r ← subprocess_run (RunArgs comando true true true 120);
  match r with
  | inl _ =>
      print ("✅ Success! " ++ success_message);;
      mret true
  | inr (CalledProcessError _ _ err) =>
      print ("❌ Error! " ++ error_message);;
      (if Py.truthy err
       then print ("Error details (stderr): " ++ Py.nl ++ Py.strip err)
       else mret tt);;
      mret false
  | inr FileNotFoundError =>
      print "❌ Error! The main command was not found. Ensure it's installed and in your PATH.";;
      print ("Attempted command: " ++ command_str);;
      mret false
  | inr TimeoutExpired =>
      print ("❌ Error! Command '" ++ command_str
             ++ "' timed out and was cancelled.");;
      mret false
  | inr (OtherException e) =>
      print ("❌ An unexpected error occurred: " ++ e);;
      mret false
  end.

(** *** Menu options *)

Definition create_virtual_environment : M St bool :=
  d ← isdir VENV_DIR;
  if (d : bool) then
    print ("⚠️ Directory '" ++ VENV_DIR
           ++ "' already exists. Skipping creation.");;
    e ← exists_ obtener_python_venv;
    if (e : bool) then
      print "✅ Existing .venv seems valid.";;
      mret true
    else
      print "❌ Existing .venv seems invalid (python executable missing). Please delete and try again.";;
      mret false
  else
    let command := [sys_executable; "-m"; "venv"; VENV_DIR] in
    let success_msg :=
      ("Virtual environment '" ++ VENV_DIR ++ "' created successfully.")%string in
    let error_msg :=
      ("Could not create the virtual environment '" ++ VENV_DIR ++ "'.")%string in
    ok ← ejecutar_comando command success_msg error_msg;
    if (ok : bool) then
      print (Py.nl ++ "🛠️ Updating pip and setuptools inside .venv...");;
      let update_command :=
        obtener_pip_venv ++ ["install"; "--upgrade"; "pip"; "setuptools"] in
      ejecutar_comando update_command "Pip and setuptools updated."
        "Could not update pip/setuptools.";;
      mret true
    else mret false.

Definition verify_and_install_pip_compile : M St bool :=
  d ← isdir VENV_DIR;
  if negb d then
    print ("🛑 Error: Virtual environment '" ++ VENV_DIR
           ++ "' does not exist. Please create it (Option 1) before installing requirements.");;
    mret false
  else
    print (Py.nl ++ "--- Ensuring 'pip-tools' is installed in .venv ---");;
    let install_command := obtener_pip_venv ++ ["install"; "pip-tools"] in
    let success_msg :=
      "'pip-tools' (which includes pip-compile) has been installed INSIDE .venv." in
    let error_msg := "Could not install 'pip-tools' inside .venv." in
    print "⏳ Attempting to install pip-tools directly into .venv...";;
    ok ← ejecutar_comando install_command success_msg error_msg;
    if (ok : bool) then mret true
    else
      print (Py.nl ++ "🛑 Could not ensure 'pip-tools' installation in .venv. Stopping requirements installation.");;
      mret false.

(** The path of the [pip-compile] executable of the environment. *)
Definition pip_compile_venv : string :=
  let p := OsPath.join os_path
             (OsPath.dirname os_path obtener_python_venv) ["pip-compile"] in
  if win32 then (p ++ ".exe")%string else p.

Definition error_msg_no_venv : string :=
  Py.nl ++ "🛑 Error: The virtual environment '" ++ VENV_DIR
  ++ "' does not exist. Please create the environment (Option 1) before installing requirements.".

Definition warning_no_pip_compile : string :=
  "🔴 Warning: Could not find 'pip-compile' executable. Falling back to 'python -m piptools compile'.".

Definition error_msg_no_lock_file : string :=
  "🔴 Cannot install. The 'requirements.txt' file was not generated or does not exist after compilation.".

Definition success_msg_compile : string :=
  "requirements.txt compiled/updated successfully INSIDE .venv.".
Definition error_msg_compile : string :=
  "Could not compile 'requirements.in'. Ensure 'requirements.in' exists.".
Definition success_msg_install : string :=
  "All dependencies installed successfully INSIDE .venv.".
Definition error_msg_install : string :=
  "Could not install packages from 'requirements.txt'.".

Definition install_requirements : M St unit :=
  d ← isdir VENV_DIR;
  if negb d then print error_msg_no_venv
  else
    ok ← verify_and_install_pip_compile;
    if negb ok then mret tt
    else
      let python_venv := obtener_python_venv in
      found ← exists_ pip_compile_venv;
      compile_command ←
        (if negb found then
           print warning_no_pip_compile;;
           mret [python_venv; "-m"; "piptools"; "compile"; "requirements.in"]
         else mret [pip_compile_venv; "requirements.in"]);
      let install_command :=
        obtener_pip_venv ++ ["install"; "-r"; "requirements.txt"] in
      print (Py.nl ++ "--- Step 1: Compiling requirements.in ---");;
      ok ← ejecutar_comando compile_command
             success_msg_compile error_msg_compile;
      if negb ok then mret tt
      else
        print (Py.nl ++ "--- Step 2: Installing from requirements.txt ---");;
        e ← exists_ "requirements.txt";
        if (e : bool) then
          ejecutar_comando install_command
            success_msg_install error_msg_install;;
          mret tt
        else print error_msg_no_lock_file.

(** *** Main function *)

(** How [show_menu] stops: [sys.exit(code)], or [input] finds the end of
    the input and raises [EOFError]; neither is caught. *)
Inductive stop :=
| SystemExit (code : Z)
| EOFError.

(** The menu and the prompt of one iteration, up to the point where
    [input] waits for the line. *)
Definition menu_header : M St unit :=
  print (Py.nl ++ Py.repeat "=" 50);;
  print "🤖 Python Project Setup Assistant";;
  print (Py.repeat "=" 50);;
  print "1. 📁 Create and prepare the virtual environment (.venv)";;
  print "2. 📦 Install requirements (in .venv)";;
  print "3. 🚪 Exit";;
  print (Py.repeat "-" 50);;
  prompt "Choose an option (1-3): ".

Definition farewell : string :=
  Py.nl ++ "👋 Thanks for using the Setup Assistant! Happy coding!".

Definition invalid_option : string :=
  Py.nl ++ "🚨 Invalid option. Please select 1, 2, or 3.".

(** The [if]/[elif] chain on the stripped line; [Some code] stands for
    [sys.exit(code)]. *)
Definition dispatch (option_ : string) : M St (option Z) :=
  if String.eqb option_ "1" then
    create_virtual_environment;; mret None
  else if String.eqb option_ "2" then
    install_requirements;; mret None
  else if String.eqb option_ "3" then
    print farewell;; mret (Some 0%Z)
  else
    print invalid_option;; mret None.

(** One turn of the [while True] loop, [line] being what [input]
    returns. *)
Definition menu_iteration (line : string) : M St (option Z) :=
  menu_header;;
  dispatch (Py.strip line).

(** The loop, over the lines the console still has to give. *)
Fixpoint show_menu (stdin : list string) : M St stop :=
  match stdin with
  | [] => menu_header;; mret EOFError
  | line :: rest =>
      r ← menu_iteration line;
      match r with
      | Some code => mret (SystemExit code)
      | None => show_menu rest
      end
  end.

End Script.

(** ** Vocabulary of the statements *)

Section Vocabulary.

Context {St : Type} {host : Host St}.

(** The call the Command Runner makes for [comando]. *)
Definition runner_call (comando : list string) : run_args :=
  RunArgs comando true true true 120.

Definition executing (comando : list string) : string :=
  Py.nl +:+ "🚀 Executing: " +:+ Py.join " " comando.

Definition not_found_line : string :=
  "❌ Error! The main command was not found. Ensure it's installed and in your PATH.".

Definition timeout_line (comando : list string) : string :=
  "❌ Error! Command '" +:+ Py.join " " comando
  +:+ "' timed out and was cancelled.".

Definition unexpected_line (e : string) : string :=
  "❌ An unexpected error occurred: " +:+ e.

(** *** The commands of the two flows and the Command Runner calls on
    them *)

Definition create_command : list string :=
  [sys_executable; "-m"; "venv"; VENV_DIR].

Definition update_command : list string :=
  obtener_pip_venv ++ ["install"; "--upgrade"; "pip"; "setuptools"].

Definition pip_tools_command : list string :=
  obtener_pip_venv ++ ["install"; "pip-tools"].

Definition compile_command (found : bool) : list string :=
  if found then [pip_compile_venv; "requirements.in"]
  else [obtener_python_venv; "-m"; "piptools"; "compile"; "requirements.in"].

Definition install_command : list string :=
  obtener_pip_venv ++ ["install"; "-r"; "requirements.txt"].

Definition create_run : M St bool :=
  ejecutar_comando create_command
    "Virtual environment '.venv' created successfully."
    "Could not create the virtual environment '.venv'.".

Definition update_run : M St bool :=
  ejecutar_comando update_command "Pip and setuptools updated."
    "Could not update pip/setuptools.".

Definition pip_tools_run : M St bool :=
  ejecutar_comando pip_tools_command
    "'pip-tools' (which includes pip-compile) has been installed INSIDE .venv."
    "Could not install 'pip-tools' inside .venv.".

Definition compile_run (found : bool) : M St bool :=
  ejecutar_comando (compile_command found)
    success_msg_compile error_msg_compile.

Definition install_run : M St bool :=
  ejecutar_comando install_command success_msg_install error_msg_install.

Definition skipping_line : string :=
  "⚠️ Directory '.venv' already exists. Skipping creation.".
Definition valid_line : string := "✅ Existing .venv seems valid.".
Definition invalid_line : string :=
  "❌ Existing .venv seems invalid (python executable missing). Please delete and try again.".
Definition updating_line : string :=
  Py.nl +:+ "🛠️ Updating pip and setuptools inside .venv...".
Definition ensuring_line : string :=
  Py.nl +:+ "--- Ensuring 'pip-tools' is installed in .venv ---".
Definition attempting_line : string :=
  "⏳ Attempting to install pip-tools directly into .venv...".
Definition stopping_line : string :=
  Py.nl +:+ "🛑 Could not ensure 'pip-tools' installation in .venv. Stopping requirements installation.".
Definition step1_line : string :=
  Py.nl +:+ "--- Step 1: Compiling requirements.in ---".
Definition step2_line : string :=
  Py.nl +:+ "--- Step 2: Installing from requirements.txt ---".

(** The events of the installation flow up to and including the
    compilation, when the flow gets that far. *)
Definition through_compile (s : St) : list event :=
  let r1 := pip_tools_run s in
  let found := os_path_exists (final r1) pip_compile_venv in
  Print ensuring_line :: Print attempting_line :: events r1
  ++ (if found then [] else [Print warning_no_pip_compile])
  ++ Print step1_line :: events (compile_run found (final r1)).

End Vocabulary.

(** White-space padding made of single bytes. *)
Definition spaces (pad : list ascii) : Prop :=
  Forall (fun c => Py.space_byte c = true) pad.

(** ** A simulated host

    A small file system (a finite map from paths to node kinds, in which a
    path also exists when something is stored below it), a switch for the
    network, and child processes that behave as the real tools do in the
    simplest case.  It serves to run the script on concrete inputs. *)

Module Sim.

Inductive node := File | Dir.

Global Instance node_eq_dec : EqDecision node.
Proof. solve_decision. Defined.

Record state := State {
  fs : gmap string node;
  online : bool
}.

Definition write (p : string) (n : node) (s : state) : state :=
  State (<[p := n]> (fs s)) (online s).

Section Platform.

Variable platform : string.
Variable executable : string.

Definition flavour : OsPath.flavour :=
  if String.eqb platform "win32" then OsPath.NT else OsPath.Posix.

Definition has_below (s : state) (d : string) : bool :=
  Py.truthy d
  && existsb (Py.startswith (d +:+ OsPath.sep flavour))
       (map_to_list (fs s)).*1.

Definition sim_isdir (s : state) (d : string) : bool :=
  bool_decide (fs s !! d = Some Dir) || has_below s d.

Definition sim_exists (s : state) (p : string) : bool :=
  bool_decide (is_Some (fs s !! p)) || has_below s p.

Definition below (d name : string) : string :=
  d +:+ OsPath.sep flavour +:+ name.

Definition bin_dir (d : string) : string :=
  match flavour with
  | OsPath.NT => below d "Scripts"
  | OsPath.Posix => below d "bin"
  end.

Definition exe_suffix : string :=
  match flavour with OsPath.NT => ".exe" | OsPath.Posix => "" end.

Definition no_network : launch :=
  Exited 1 ""
    ("ERROR: Could not find a version that satisfies the requirement"
     +:+ Py.nl).

(** What the tools do: [-m venv d] makes the environment; [pip install]
    needs the network, and installing [pip-tools] adds the
    [pip-compile] launcher next to the interpreter; compiling needs
    [requirements.in] and writes [requirements.txt], or another file
    when a [.pip-tools.toml] configures the output; installing from a
    file needs that file. *)
Definition tool (exe : string) (rest : list string) (s : state)
    : launch * state :=
  match rest with
  | ["-m"; "venv"; d] =>
      (Exited 0 "" "",
       write (below (bin_dir d) ("python" +:+ exe_suffix)) File
         (write d Dir s))
  | ["-m"; "pip"; "install"; "pip-tools"] =>
      if online s then
        (Exited 0 "" "",
         write (below (OsPath.dirname flavour exe)
                  ("pip-compile" +:+ exe_suffix)) File s)
      else (no_network, s)
  | ["requirements.in"]
  | ["-m"; "piptools"; "compile"; "requirements.in"] =>
      if sim_exists s "requirements.in"
      then (Exited 0 "" "",
            write (if sim_exists s ".pip-tools.toml"
                   then "locked/requirements.txt" else "requirements.txt")
              File s)
      else (Exited 2 "" "Error: Path 'requirements.in' does not exist.",
            s)
  | ["-m"; "pip"; "install"; "-r"; f] =>
      if negb (sim_exists s f)
      then (Exited 1 "" "ERROR: Could not open requirements file", s)
      else if online s then (Exited 0 "" "", s) else (no_network, s)
  | "-m" :: "pip" :: "install" :: _ =>
      if online s then (Exited 0 "" "", s) else (no_network, s)
  | _ => (Exited 0 "" "", s)
  end.

Definition sim_popen (a : run_args) (s : state) : launch * state :=
  match argv a with
  | [] => (Fault "list index out of range", s)
  | exe :: rest =>
      if sim_exists s exe then tool exe rest s
      else (NoSuchExecutable, s)
  end.

Program Definition host : Host state := {|
  sys_platform := platform;
  sys_executable := executable;
  os_path_isdir := sim_isdir;
  os_path_exists := sim_exists;
  popen := sim_popen
|}.
Next Obligation.
  intros s d p Hd H. fold flavour in H.
  assert (forall a b c : string, (a +:+ b) +:+ c = a +:+ (b +:+ c))
    as assoc.
  { intros a b c. induction a as [|x a IH]; simpl; [done|].
    by rewrite IH. }
  assert (forall a b : string, Py.startswith a (a +:+ b) = true)
    as self_app.
  { intros a b. induction a as [|c a IH]; simpl; [done|].
    rewrite Ascii.eqb_refl. exact IH. }
  assert (forall a b k : string,
            Py.startswith (a +:+ b) k = true ->
            Py.startswith a k = true) as app_l.
  { intros a b. induction a as [|c a IH]; intros k; simpl; [done|].
    destruct k as [|c' k]; [done|].
    intros [-> Hk]%andb_true_iff. by rewrite (IH _ Hk). }
  unfold sim_isdir. apply orb_true_iff; right.
  unfold has_below. apply andb_true_iff; split.
  { destruct d; [done|reflexivity]. }
  apply existsb_exists.
  unfold sim_exists in H. apply orb_true_iff in H as [H|H].
  - apply bool_decide_eq_true in H as [x Hx].
    exists (d +:+ OsPath.sep flavour +:+ p). split.
    + apply list_elem_of_In, list_elem_of_fmap.
      exists (d +:+ OsPath.sep flavour +:+ p, x). split; [done|].
      by apply elem_of_map_to_list.
    + rewrite <- assoc. apply self_app.
  - unfold has_below in H. apply andb_true_iff in H as [_ H].
    apply existsb_exists in H as (k & Hk & Hpre).
    exists k. split; [done|].
    apply (app_l _ (p +:+ OsPath.sep flavour)).
    by rewrite <- !assoc in Hpre |- *.
Qed.

End Platform.

(** A Linux machine and a Windows machine. *)
Definition linux : Host state := host "linux" "/usr/bin/python3".
Definition windows : Host state := host "win32" "C:\Python312\python.exe".

(** Only the system interpreters. *)
Definition fresh : state :=
  State {[ "/usr/bin/python3" := File;
           "C:\Python312\python.exe" := File ]} true.

(** The project directory as checked out: [requirements.in] is there. *)
Definition project : state := write "requirements.in" File fresh.

(** An environment directory that was emptied by hand. *)
Definition gutted : state := write ".venv" Dir project.

Definition offline (s : state) : state := State (fs s) false.


End Sim.

(** The states option 1 leaves on a fresh machine, on the project, and
    on the project with the redirected lock file. *)
Definition linux_env : Sim.state :=
  final (create_virtual_environment (host := Sim.linux) Sim.fresh).

Definition linux_project_env : Sim.state :=
  final (create_virtual_environment (host := Sim.linux) Sim.project).



(** ** Vocabulary for whole sessions *)

Section SessionVocabulary.

Context {St : Type} {host : Host St}.

(** The message of the directory check inside
    [verify_and_install_pip_compile]. *)
Definition verify_no_venv_line : string :=
  "🛑 Error: Virtual environment '.venv' does not exist. Please create it (Option 1) before installing requirements.".

(** Every command the script can hand to [subprocess.run]. *)
Definition known_commands : list (list string) :=
  [create_command; update_command; pip_tools_command;
   compile_command true; compile_command false; install_command].

(** An event is in order when, being a launch, it is a Command Runner call
    (checked, text mode, output captured, time limit 120) of one of the
    known commands. *)
Definition in_order (e : event) : Prop :=
  match e with
  | Run a => a = runner_call (argv a) /\ In (argv a) known_commands
  | _ => True
  end.

(** What one turn of the menu prints for a line that is no option. *)
Definition invalid_turn (s : St) : list event :=
  events (menu_header s) ++ [Print invalid_option].

End SessionVocabulary.

(** Some [print] call of [l] has a text that starts with [mark]. *)
Definition marked (mark : string) (l : list event) : Prop :=
  exists line, In (Print line) l /\ Py.startswith mark line = true.

(** A line that selects no option. *)
Definition no_option (line : string) : Prop :=
  Py.strip line <> "1" /\ Py.strip line <> "2" /\ Py.strip line <> "3".

(** A host on the simulated Linux file system whose every launch gives the
    same reply and changes nothing. *)
Definition canned (reply : launch) : Host Sim.state := {|
  sys_platform := "linux";
  sys_executable := "/usr/bin/python3";
  os_path_isdir := os_path_isdir (Host := Sim.linux);
  os_path_exists := os_path_exists (Host := Sim.linux);
  popen := fun _ s => (reply, s);
  exists_below_dir := exists_below_dir (Host := Sim.linux)
|}.

(** * Properties *)

Lemma runs_app (l1 l2 : list event) : runs (l1 ++ l2) = runs l1 ++ runs l2.
Proof.
  induction l1 as [|[line|text|a] l1 IH]; simpl; [done|done|done|].
  by rewrite IH.
Qed.

Lemma printed_app (l1 l2 : list event) :
  printed (l1 ++ l2) = printed l1 ++ printed l2.
Proof.
  induction l1 as [|[line|text|a] l1 IH]; simpl; [done| |done|done].
  by rewrite IH.
Qed.

Lemma runs_prints (lines : list string) : runs (List.map Print lines) = [].
Proof. induction lines; simpl; done. Qed.

(** Unfold the monad and the primitive effects, leaving the calls of the
    script's own functions in place. *)
Ltac unfold_M :=
  unfold mbind, M_bind, mret, M_ret, print, prompt, isdir, exists_ in *.

Ltac observe := unfold value, final, events in *; simpl in *.

(** Only reduce the projections of a result. *)
Ltac project := cbn [value final events fst snd].

Section CommandRunner.

Context {St : Type} {host : Host St}.

(** The state after the Command Runner is the one the launch leaves, and
    the result is [true] exactly for exit status 0. *)
Lemma ejecutar_comando_final (comando : list string) (ok err : string)
    (s : St) :
  final (ejecutar_comando comando ok err s)
  = (popen (runner_call comando) s).2.
Proof.
  unfold ejecutar_comando, subprocess_run, runner_call; unfold_M.
  destruct (popen _ s) as [[rc out e| | |t] s']; simpl; try done.
  destruct (rc =? 0)%Z; simpl; [done|]. by destruct (Py.truthy e).
Qed.

Lemma ejecutar_comando_value (comando : list string) (ok err : string)
    (s : St) :
  value (ejecutar_comando comando ok err s) = true
  <-> exists out e, (popen (runner_call comando) s).1 = Exited 0 out e.
Proof.
  unfold ejecutar_comando, subprocess_run, runner_call; unfold_M.
  destruct (popen _ s) as [[rc out e| | |t] s']; simpl;
    try (split; [discriminate | intros (? & ? & ?); discriminate]).
  destruct (rc =? 0)%Z eqn:Hrc; simpl.
  - apply Z.eqb_eq in Hrc as ->. split; [eauto | done].
  - split.
    + by destruct (Py.truthy e).
    + intros (? & ? & [= -> _ _]). done.
Qed.

(** One launch, and only prints around it. *)
Lemma ejecutar_comando_events (comando : list string) (ok err : string)
    (s : St) :
  exists lines,
    events (ejecutar_comando comando ok err s)
    = Print (executing comando) :: Run (runner_call comando)
        :: List.map Print lines.
Proof.
  unfold ejecutar_comando, subprocess_run, runner_call, executing;
    unfold_M.
  destruct (popen _ s) as [[rc out e| | |t] s']; simpl.
  - destruct (rc =? 0)%Z; simpl.
    + by eexists [_].
    + destruct (Py.truthy e); simpl; [by eexists [_; _] | by eexists [_]].
  - by eexists [_; _].
  - by eexists [_].
  - by eexists [_].
Qed.

Lemma ejecutar_comando_runs (comando : list string) (ok err : string)
    (s : St) :
  runs (events (ejecutar_comando comando ok err s)) = [comando].
Proof.
  destruct (ejecutar_comando_events comando ok err s) as [lines ->].
  simpl. by rewrite runs_prints.
Qed.

(** C1. The Command Runner makes exactly one [subprocess.run] call for
    the command, with output captured and a time limit of 120; it leaves
    the state the launch leaves; it returns [true] exactly when the
    process exited with status 0; and what it prints after the
    "Executing" line is, by outcome: the success message; the failure
    message, followed by the stripped stderr when stderr is not empty;
    the not-found message and the attempted command; the timeout
    message; the message with the exception text.  The three fixed
    failure messages differ from one another. *)
Theorem ejecutar_comando_outcomes (comando : list string)
    (success_message error_message : string) (s : St) :
  let a := runner_call comando in
  let r := ejecutar_comando comando success_message error_message s in
  let report (b : bool) (lines : list string) : Prop :=
    value r = b
    /\ events r = Print (executing comando) :: Run a :: List.map Print lines in
  capture_output a = true /\ timeout a = 120%Z /\ check a = true
  /\ argv a = comando
  /\ final r = (popen a s).2
  /\ (value r = true <-> exists out e, (popen a s).1 = Exited 0 out e)
  /\ match (popen a s).1 with
     | Exited rc out e =>
         if (rc =? 0)%Z
         then report true ["✅ Success! " +:+ success_message]
         else report false
                (("❌ Error! " +:+ error_message)
                 :: if Py.truthy e
                    then ["Error details (stderr): " +:+ Py.nl
                          +:+ Py.strip e]
                    else [])
     | NoSuchExecutable =>
         report false
           [not_found_line;
            "Attempted command: " +:+ Py.join " " comando]
     | TimeLimit => report false [timeout_line comando]
     | Fault e => report false [unexpected_line e]
     end
  /\ not_found_line <> timeout_line comando
  /\ (forall e, unexpected_line e <> not_found_line
                /\ unexpected_line e <> timeout_line comando).
Proof.
  intros a r report.
  split; [done|]. split; [done|]. split; [done|]. split; [done|].
  split; [apply ejecutar_comando_final|].
  split; [apply ejecutar_comando_value|].
  split.
  - subst a r report. unfold ejecutar_comando, subprocess_run, runner_call,
      executing; unfold_M.
    destruct (popen _ s) as [[rc out e| | |t] s']; simpl; try done.
    destruct (rc =? 0)%Z; simpl; [done|].
    by destruct (Py.truthy e).
  - unfold not_found_line, timeout_line, unexpected_line. simpl.
    split; [discriminate|]. intros e; split; discriminate.
Qed.

End CommandRunner.

Section Flows.

Context {St : Type} {host : Host St}.

(** *** The flows, step by step *)

Lemma create_virtual_environment_steps (s : St) :
  create_virtual_environment s =
    if os_path_isdir s VENV_DIR then
      if os_path_exists s obtener_python_venv
      then (true, s, [Print skipping_line; Print valid_line])
      else (false, s, [Print skipping_line; Print invalid_line])
    else
      let r1 := create_run s in
      if value r1 then
        let r2 := update_run (final r1) in
        (true, final r2, events r1 ++ Print updating_line :: events r2)
      else (false, final r1, events r1).
Proof.
  unfold create_virtual_environment, create_run, update_run,
    create_command, update_command; unfold_M.
  destruct (os_path_isdir s VENV_DIR); simpl.
  { by destruct (os_path_exists s obtener_python_venv). }
  destruct (ejecutar_comando _ _ _ s) as [[b1 s1] l1]. observe.
  destruct b1; simpl; [|by rewrite app_nil_r].
  destruct (ejecutar_comando _ _ _ s1) as [[b2 s2] l2]. observe.
  by rewrite app_nil_r.
Qed.

Lemma verify_and_install_pip_compile_steps (s : St) :
  verify_and_install_pip_compile s =
    if os_path_isdir s VENV_DIR then
      let r := pip_tools_run s in
      (value r, final r,
       Print ensuring_line :: Print attempting_line :: events r
       ++ if value r then [] else [Print stopping_line])
    else
      (false, s,
       [Print "🛑 Error: Virtual environment '.venv' does not exist. Please create it (Option 1) before installing requirements."]).
Proof.
  unfold verify_and_install_pip_compile, pip_tools_run, pip_tools_command;
    unfold_M.
  destruct (os_path_isdir s VENV_DIR); simpl; [|done].
  destruct (ejecutar_comando _ _ _ s) as [[b1 s1] l1]. observe.
  by destruct b1.
Qed.

Lemma install_requirements_steps (s : St) :
  install_requirements s =
    if os_path_isdir s VENV_DIR then
      let r1 := pip_tools_run s in
      if value r1 then
        let found := os_path_exists (final r1) pip_compile_venv in
        let r2 := compile_run found (final r1) in
        if value r2 then
          if os_path_exists (final r2) "requirements.txt" then
            let r3 := install_run (final r2) in
            (tt, final r3,
             through_compile s ++ Print step2_line :: events r3)
          else
            (tt, final r2,
             through_compile s
             ++ [Print step2_line; Print error_msg_no_lock_file])
        else (tt, final r2, through_compile s)
      else
        (tt, final r1,
         Print ensuring_line :: Print attempting_line :: events r1
         ++ [Print stopping_line])
    else (tt, s, [Print error_msg_no_venv]).
Proof.
  unfold install_requirements. unfold mbind at 1, M_bind at 1, isdir at 1.
  destruct (os_path_isdir s VENV_DIR) eqn:Hd; simpl; [|done].
  unfold mbind at 1, M_bind at 1.
  rewrite verify_and_install_pip_compile_steps, Hd.
  unfold through_compile.
  destruct (pip_tools_run s) as [[b1 s1] l1]. observe.
  destruct b1; simpl; [|by rewrite app_nil_r].
  unfold compile_run, install_run, compile_command, install_command;
    unfold_M.
  destruct (os_path_exists s1 pip_compile_venv); simpl.
  - destruct (ejecutar_comando _ _ _ s1) as [[b2 s2] l2]. observe.
    destruct b2; simpl.
    + destruct (os_path_exists s2 "requirements.txt"); simpl.
      * destruct (ejecutar_comando _ _ _ s2) as [[b3 s3] l3]. observe.
        rewrite ?app_nil_r, <- ?app_assoc. simpl. by rewrite <- ?app_assoc.
      * rewrite ?app_nil_r, <- ?app_assoc. simpl. by rewrite <- ?app_assoc.
    + by rewrite ?app_nil_r, <- ?app_assoc.
  - destruct (ejecutar_comando _ _ _ s1) as [[b2 s2] l2]. observe.
    destruct b2; simpl.
    + destruct (os_path_exists s2 "requirements.txt"); simpl.
      * destruct (ejecutar_comando _ _ _ s2) as [[b3 s3] l3]. observe.
        rewrite ?app_nil_r, <- ?app_assoc. simpl. by rewrite <- ?app_assoc.
      * rewrite ?app_nil_r, <- ?app_assoc. simpl. by rewrite <- ?app_assoc.
    + by rewrite ?app_nil_r, <- ?app_assoc.
Qed.

(** *** Paths inside the environment *)

Lemma obtener_python_venv_path :
  obtener_python_venv
  = if win32 then ".venv\Scripts\python.exe" else ".venv/bin/python".
Proof.
  unfold obtener_python_venv, os_path. by destruct win32.
Qed.

(** The interpreter can only exist inside an existing environment
    directory. *)
Lemma python_inside_venv (s : St) :
  os_path_exists s obtener_python_venv = true ->
  os_path_isdir s VENV_DIR = true.
Proof.
  rewrite obtener_python_venv_path. unfold win32. intros H.
  pose proof (exists_below_dir s VENV_DIR) as law.
  destruct (String.eqb sys_platform "win32").
  - by apply (law "Scripts\python.exe").
  - by apply (law "bin/python").
Qed.

(** *** Environment creation *)

(** C3. When the environment directory exists, the creation flow runs no
    command and leaves the state as it is; it prints the "valid" message
    and returns [true] when the interpreter is there, the "invalid"
    message and [false] when it is not.  Hence a second call right after
    a call that returned [true], the interpreter being present, returns
    [true], runs nothing and prints no error. *)
Theorem create_virtual_environment_idempotent (s : St) :
  let r := create_virtual_environment s in
  (os_path_isdir s VENV_DIR = true ->
     runs (events r) = [] /\ final r = s
     /\ (os_path_exists s obtener_python_venv = true ->
           value r = true
           /\ events r = [Print skipping_line; Print valid_line])
     /\ (os_path_exists s obtener_python_venv = false ->
           value r = false
           /\ events r = [Print skipping_line; Print invalid_line]))
  /\ (value r = true ->
      os_path_exists (final r) obtener_python_venv = true ->
      create_virtual_environment (final r)
      = (true, final r, [Print skipping_line; Print valid_line])).
Proof.
  intros r. split.
  - intros Hd. subst r. rewrite create_virtual_environment_steps, Hd.
    destruct (os_path_exists s obtener_python_venv); observe; by intuition.
  - intros _ Hpy. rewrite create_virtual_environment_steps.
    by rewrite (python_inside_venv _ Hpy), Hpy.
Qed.

(** C7. When the environment directory is absent the creation command is
    run.  If it succeeds, the upgrade of pip and setuptools through the
    interpreter of the environment is run next and the flow returns
    [true] whatever the upgrade returns; if it fails, nothing else is
    run and the flow returns [false]. *)
Theorem create_virtual_environment_upgrade (s : St) :
  os_path_isdir s VENV_DIR = false ->
  let r1 := create_run s in
  let r2 := update_run (final r1) in
  let r := create_virtual_environment s in
  update_command
  = [obtener_python_venv; "-m"; "pip"; "install"; "--upgrade"; "pip";
     "setuptools"]
  /\ (value r1 = true ->
        value r = true
        /\ events r = events r1 ++ Print updating_line :: events r2
        /\ runs (events r) = [create_command; update_command]
        /\ final r = final r2)
  /\ (value r1 = false ->
        value r = false
        /\ events r = events r1
        /\ runs (events r) = [create_command]
        /\ final r = final r1).
Proof.
  intros Hd r1 r2 r. split; [done|].
  subst r. rewrite create_virtual_environment_steps, Hd.
  cbv zeta. fold r1. fold r2.
  split; intros ->; project.
  - split; [done|]. split; [done|]. split; [|done].
    rewrite runs_app. simpl.
    subst r1 r2. unfold create_run, update_run.
    by rewrite !ejecutar_comando_runs.
  - split; [done|]. split; [done|]. split; [|done].
    subst r1. unfold create_run. by rewrite ejecutar_comando_runs.
Qed.

(** *** Dependency installation *)


Lemma through_compile_runs (s : St) :
  runs (through_compile s)
  = [pip_tools_command;
     compile_command
       (os_path_exists (final (pip_tools_run s)) pip_compile_venv)].
Proof.
  unfold through_compile. cbv zeta. simpl.
  rewrite !runs_app. simpl.
  unfold pip_tools_run, compile_run. rewrite !ejecutar_comando_runs.
  by destruct (os_path_exists _ _).
Qed.

Lemma install_command_not_earlier (found : bool) :
  ~ In install_command [pip_tools_command; compile_command found].
Proof.
  unfold install_command, pip_tools_command, compile_command,
    obtener_pip_venv.
  simpl. intros [H|[H|[]]]; [discriminate|].
  destruct found; discriminate.
Qed.

(** C5. When the compilation returns [false], the flow ends there: the
    commands run are the pip-tools installation and the compilation,
    and the installation from the lock file is not among them. *)
Theorem install_requirements_compile_failed (s : St) :
  os_path_isdir s VENV_DIR = true ->
  let r1 := pip_tools_run s in
  let found := os_path_exists (final r1) pip_compile_venv in
  let r2 := compile_run found (final r1) in
  let r := install_requirements s in
  value r1 = true ->
  value r2 = false ->
  events r = through_compile s
  /\ final r = final r2
  /\ runs (events r) = [pip_tools_command; compile_command found]
  /\ ~ In install_command (runs (events r)).
Proof.
  intros Hd r1 found r2 r H1 H2.
  assert (events r = through_compile s /\ final r = final r2) as [He Hf].
  { subst r. rewrite install_requirements_steps, Hd.
    cbv zeta. fold r1. fold found. fold r2. by rewrite H1, H2. }
  split; [done|]. split; [done|].
  rewrite He, through_compile_runs. fold r1. fold found.
  split; [done|]. apply install_command_not_earlier.
Qed.



(** *** The commands a flow can run *)

Lemma create_virtual_environment_runs (s : St) :
  let l := runs (events (create_virtual_environment s)) in
  l = [] \/ l = [create_command] \/ l = [create_command; update_command].
Proof.
  cbv zeta. rewrite create_virtual_environment_steps.
  destruct (os_path_isdir s VENV_DIR).
  { left. by destruct (os_path_exists _ _). }
  cbv zeta. destruct (value (create_run s)); project; right.
  - right. rewrite runs_app. simpl. unfold create_run, update_run.
    by rewrite !ejecutar_comando_runs.
  - left. unfold create_run. by rewrite ejecutar_comando_runs.
Qed.

Lemma install_requirements_runs (s : St) :
  let l := runs (events (install_requirements s)) in
  l = []
  \/ (os_path_isdir s VENV_DIR = true
      /\ exists tail,
           l = pip_tools_command :: tail
           /\ (tail = []
               \/ exists found,
                    tail = [compile_command found]
                    \/ tail = [compile_command found; install_command])).
Proof.
  cbv zeta. rewrite install_requirements_steps.
  destruct (os_path_isdir s VENV_DIR); [right; split; [done|] | by left].
  cbv zeta. destruct (value (pip_tools_run s)).
  - set (found := os_path_exists _ pip_compile_venv).
    exists (compile_command found
            :: if value (compile_run found (final (pip_tools_run s)))
               then if os_path_exists
                         (final (compile_run found (final (pip_tools_run s))))
                         "requirements.txt"
                    then [install_command] else []
               else []).
    split; [|right; exists found].
    + destruct (value (compile_run _ _)); project.
      * destruct (os_path_exists _ "requirements.txt"); project;
          rewrite runs_app, through_compile_runs; simpl; [|done].
        unfold install_run. by rewrite ejecutar_comando_runs.
      * by rewrite through_compile_runs.
    + destruct (value (compile_run _ _)); [|by left].
      destruct (os_path_exists _ "requirements.txt"); [by right | by left].
  - exists []. split; [|by left]. project. simpl. rewrite runs_app.
    unfold pip_tools_run. by rewrite ejecutar_comando_runs.
Qed.

(** C10. The three package-management commands are the interpreter of
    the environment, [-m], [pip] and their arguments, and that
    interpreter is a path below the environment directory.  Every
    command either flow runs is the creation of the environment (the
    platform interpreter running [venv]), one of these three, or the
    compilation; so whenever a flow runs [pip] as a module, the
    executable is the interpreter of the environment. *)
Theorem pip_only_inside_venv (s : St) :
  let ran :=
    runs (events (create_virtual_environment s))
    ++ runs (events (install_requirements s)) in
  obtener_pip_venv = [obtener_python_venv; "-m"; "pip"]
  /\ update_command
     = obtener_pip_venv ++ ["install"; "--upgrade"; "pip"; "setuptools"]
  /\ pip_tools_command = obtener_pip_venv ++ ["install"; "pip-tools"]
  /\ install_command
     = obtener_pip_venv ++ ["install"; "-r"; "requirements.txt"]
  /\ Py.startswith (VENV_DIR +:+ OsPath.sep os_path) obtener_python_venv
     = true
  /\ (forall c, In c ran ->
        c = create_command \/ c = update_command \/ c = pip_tools_command
        \/ c = install_command \/ exists found, c = compile_command found)
  /\ (forall exe rest, In (exe :: "-m" :: "pip" :: rest) ran ->
        exe = obtener_python_venv).
Proof.
  intros ran.
  assert (forall c, In c ran ->
            c = create_command \/ c = update_command
            \/ c = pip_tools_command \/ c = install_command
            \/ exists found, c = compile_command found) as Hran.
  { intros c [Hc|Hc]%in_app_or.
    - destruct (create_virtual_environment_runs s) as [H|[H|H]];
        cbv zeta in H; rewrite H in Hc; simpl in Hc; intuition.
    - destruct (install_requirements_runs s) as [H|(_ & tail & H & Ht)];
        cbv zeta in H; rewrite H in Hc; [done|].
      destruct Hc as [<-|Hc]; [by intuition|].
      destruct Ht as [->|(found & [->| ->])]; simpl in Hc;
        intuition eauto. }
  split; [done|]. split; [done|]. split; [done|]. split; [done|].
  split.
  { unfold obtener_python_venv, os_path. by destruct win32. }
  split; [exact Hran|].
  intros exe rest Hin.
  destruct (Hran _ Hin) as [H|[H|[H|[H|[found H]]]]];
    unfold create_command, update_command, pip_tools_command,
      install_command, compile_command, obtener_pip_venv in H;
    simpl in H; try (by injection H); try discriminate.
  destruct found; [discriminate | by injection H].
Qed.

(** C2, as the code has it.  The installation flow checks the
    environment directory and nothing else: a command is run only when
    the directory exists, and when it exists the pip-tools installation
    is always run, whether or not the interpreter is there.  That
    command starts with the interpreter of the environment; when it
    fails, and in particular when the interpreter is reported as not
    found, it is the only command of the flow. *)
Theorem install_requirements_prerequisite (s : St) :
  let r := install_requirements s in
  let first := popen (runner_call pip_tools_command) s in
  (runs (events r) <> [] -> os_path_isdir s VENV_DIR = true)
  /\ (os_path_isdir s VENV_DIR = true ->
      hd_error pip_tools_command = Some obtener_python_venv
      /\ (exists tail, runs (events r) = pip_tools_command :: tail)
      /\ ((forall out e, first.1 <> Exited 0 out e) ->
          runs (events r) = [pip_tools_command] /\ final r = first.2)
      /\ (first.1 = NoSuchExecutable ->
          events r
          = [Print ensuring_line; Print attempting_line;
             Print (executing pip_tools_command);
             Run (runner_call pip_tools_command);
             Print not_found_line;
             Print ("Attempted command: " +:+ Py.join " " pip_tools_command);
             Print stopping_line])).
Proof.
  intros r first. split.
  - subst r. rewrite install_requirements_steps.
    by destruct (os_path_isdir s VENV_DIR).
  - intros Hd. split; [done|]. split; [|split].
    + destruct (install_requirements_runs s) as [H|(_ & tail & H & _)];
        cbv zeta in H; [|by exists tail].
      exfalso. revert H. rewrite install_requirements_steps, Hd. cbv zeta.
      destruct (value (pip_tools_run s)); project.
      * destruct (value (compile_run _ _)); project;
          [destruct (os_path_exists _ "requirements.txt"); project|];
          rewrite ?runs_app, through_compile_runs; discriminate.
      * simpl. rewrite runs_app. unfold pip_tools_run.
        rewrite ejecutar_comando_runs. discriminate.
    + intros Hfail.
      assert (value (pip_tools_run s) = false) as Hv.
      { destruct (value (pip_tools_run s)) eqn:Hv; [|done].
        apply ejecutar_comando_value in Hv as (out & e & Hv).
        by destruct (Hfail out e). }
      subst r. rewrite install_requirements_steps, Hd. cbv zeta.
      rewrite Hv. project. split.
      * simpl. rewrite runs_app. unfold pip_tools_run.
        by rewrite ejecutar_comando_runs.
      * apply ejecutar_comando_final.
    + intros Hnf. subst r first.
      rewrite install_requirements_steps, Hd. cbv zeta.
      unfold pip_tools_run, ejecutar_comando, subprocess_run, runner_call,
        executing in *; unfold_M.
      destruct (popen _ s) as [l s']. simpl in Hnf. subst l. done.
Qed.

End Flows.

(** *** Stripping the padding of a line *)

Lemma space_head_byte (c : ascii) (l : list ascii) :
  Py.space_byte c = true -> Py.space_head (c :: l) = 1%nat.
Proof.
  intros H. unfold Py.space_head. simpl List.map. cbv iota.
  by rewrite ascii_N_embedding, H.
Qed.

Lemma space_last_byte (c : ascii) (l : list ascii) :
  Py.space_byte c = true -> Py.space_last (c :: l) = 1%nat.
Proof.
  intros H. unfold Py.space_last. simpl List.map. cbv iota.
  by rewrite ascii_N_embedding, H.
Qed.

Lemma drop_spaces_pad (head : list ascii -> nat) (pad rest : list ascii) :
  (forall c l, Py.space_byte c = true -> head (c :: l) = 1%nat) ->
  spaces pad ->
  head rest = 0%nat ->
  forall fuel, (List.length pad <= fuel)%nat ->
  Py.drop_spaces head fuel (pad ++ rest) = rest.
Proof.
  intros Hhead Hpad Hrest. induction Hpad as [|c pad Hc _ IH]; intros fuel Hf.
  - simpl. destruct fuel; simpl; [done|]. by rewrite Hrest.
  - destruct fuel as [|fuel]; simpl in Hf; [lia|].
    simpl. rewrite (Hhead _ _ Hc). simpl. apply IH. lia.
Qed.

Lemma strip_padded (pad1 core pad2 : list ascii) :
  spaces pad1 -> spaces pad2 ->
  Py.space_head (core ++ pad2) = 0%nat ->
  Py.space_last (rev core) = 0%nat ->
  Py.strip (Py.text (pad1 ++ core ++ pad2)) = Py.text core.
Proof.
  intros H1 H2 Hh Hl. unfold Py.strip, Py.chars, Py.text.
  rewrite list_ascii_of_string_of_list_ascii.
  unfold Py.lstrip_bytes.
  rewrite (drop_spaces_pad _ pad1 (core ++ pad2) space_head_byte H1 Hh).
  2:{ rewrite length_app. lia. }
  unfold Py.rstrip_bytes. rewrite rev_app_distr.
  rewrite (drop_spaces_pad _ (rev pad2) (rev core) space_last_byte).
  - by rewrite rev_involutive.
  - by apply List.Forall_rev.
  - done.
  - rewrite length_rev, length_app. lia.
Qed.

Section Menu.

Context {St : Type} {host : Host St}.

Lemma menu_header_run (s : St) :
  final (menu_header s) = s /\ runs (events (menu_header s)) = [].
Proof. done. Qed.

Lemma dispatch_run (o : string) (s : St) :
  dispatch o s =
    if String.eqb o "1" then
      let f := create_virtual_environment s in (None, final f, events f)
    else if String.eqb o "2" then
      let f := install_requirements s in (None, final f, events f)
    else if String.eqb o "3" then (Some 0%Z, s, [Print farewell])
    else (None, s, [Print invalid_option]).
Proof.
  unfold dispatch. destruct (String.eqb o "1").
  { unfold mbind, M_bind, mret, M_ret. cbv zeta.
    destruct (create_virtual_environment s) as [[b s1] l1]. project.
    by rewrite app_nil_r. }
  destruct (String.eqb o "2").
  { unfold mbind, M_bind, mret, M_ret. cbv zeta.
    destruct (install_requirements s) as [[b s1] l1]. project.
    by rewrite app_nil_r. }
  by destruct (String.eqb o "3").
Qed.

Lemma menu_iteration_run (line : string) (s : St) :
  menu_iteration line s =
    let d := dispatch (Py.strip line) s in
    (value d, final d, events (menu_header s) ++ events d).
Proof.
  unfold menu_iteration. unfold mbind at 1, M_bind at 1.
  change (menu_header s) with (tt, s, events (menu_header s)).
  project. by destruct (dispatch (Py.strip line) s) as [[v s1] l1].
Qed.

Lemma menu_iteration_value (line : string) (s : St) :
  value (menu_iteration line s)
  = if String.eqb (Py.strip line) "3" then Some 0%Z else None.
Proof.
  rewrite menu_iteration_run, dispatch_run. cbv zeta.
  destruct (String.eqb_spec (Py.strip line) "1") as [->|_]; [done|].
  destruct (String.eqb_spec (Py.strip line) "2") as [->|_]; [done|].
  by destruct (String.eqb (Py.strip line) "3").
Qed.

Lemma show_menu_cons (line : string) (rest : list string) (s : St) :
  show_menu (line :: rest) s =
    let r := menu_iteration line s in
    match value r with
    | Some code => (SystemExit code, final r, events r)
    | None =>
        let r' := show_menu rest (final r) in
        (value r', final r', events r ++ events r')
    end.
Proof.
  simpl. unfold mbind at 1, M_bind at 1.
  destruct (menu_iteration line s) as [[[code|] s1] l1]; project.
  - unfold mret, M_ret. by rewrite app_nil_r.
  - by destruct (show_menu rest s1) as [[v s2] l2].
Qed.

(** C9. One turn of the menu writes the menu and the prompt, strips the
    line and dispatches on the result: ["1"] runs the creation flow,
    ["2"] the installation flow, ["3"] prints the farewell and exits with
    status 0 (the loop ends there, whatever input is left); anything else
    prints the invalid-option message, runs no command, leaves the state
    as it is, and the loop goes on with the next line, which starts by
    writing the menu and the prompt again.  Around a digit, any run of
    ASCII white space is stripped. *)
Theorem menu_iteration_dispatch (line : string) (s : St) :
  let o := Py.strip line in
  let r := menu_iteration line s in
  let header := events (menu_header s) in
  (o = "1" ->
     let f := create_virtual_environment s in
     value r = None /\ final r = final f
     /\ events r = header ++ events f)
  /\ (o = "2" ->
     let f := install_requirements s in
     value r = None /\ final r = final f
     /\ events r = header ++ events f)
  /\ (o = "3" ->
     value r = Some 0%Z /\ final r = s
     /\ events r = header ++ [Print farewell]
     /\ forall rest,
          show_menu (line :: rest) s
          = (SystemExit 0, s, header ++ [Print farewell]))
  /\ (o <> "1" -> o <> "2" -> o <> "3" ->
     value r = None /\ final r = s
     /\ events r = header ++ [Print invalid_option]
     /\ runs (events r) = []
     /\ forall rest,
          show_menu (line :: rest) s
          = (value (show_menu rest s), final (show_menu rest s),
             header ++ Print invalid_option :: events (show_menu rest s)))
  /\ (forall pad1 pad2 digit,
        spaces pad1 -> spaces pad2 ->
        In digit ["1"; "2"; "3"] ->
        Py.strip (Py.text (pad1 ++ Py.chars digit ++ pad2)) = digit)
  /\ header
     = [Print (Py.nl +:+ Py.repeat "=" 50);
        Print "🤖 Python Project Setup Assistant";
        Print (Py.repeat "=" 50);
        Print "1. 📁 Create and prepare the virtual environment (.venv)";
        Print "2. 📦 Install requirements (in .venv)";
        Print "3. 🚪 Exit";
        Print (Py.repeat "-" 50);
        Prompt "Choose an option (1-3): "]
  /\ farewell
     = Py.nl +:+ "👋 Thanks for using the Setup Assistant! Happy coding!"
  /\ invalid_option
     = Py.nl +:+ "🚨 Invalid option. Please select 1, 2, or 3."
  /\ (forall rest s',
        exists tail, events (show_menu rest s') = header ++ tail).
Proof.
  intros o r header.
  assert (forall rest,
            show_menu (line :: rest) s
            = match value r with
              | Some code => (SystemExit code, final r, events r)
              | None =>
                  let r' := show_menu rest (final r) in
                  (value r', final r', events r ++ events r')
              end) as Hloop.
  { intros rest. subst r. simpl. unfold mbind at 1, M_bind at 1.
    destruct (menu_iteration line s) as [[[code|] s1] l1]; project.
    - unfold mret, M_ret. by rewrite app_nil_r.
    - by destruct (show_menu rest s1) as [[v s2] l2]. }
  assert (r = let d := dispatch o s in
              (value d, final d, header ++ events d)) as Hr.
  { subst r header o. unfold menu_iteration.
    unfold mbind at 1, M_bind at 1.
    change (menu_header s) with (tt, s, events (menu_header s)).
    project. by destruct (dispatch (Py.strip line) s) as [[v s1] l1]. }
  split; [|split; [|split; [|split; [|split; [|split; [|split; [|split]]]]]]].
  - intros Ho f. rewrite Hr. unfold dispatch.
    destruct (String.eqb_spec o "1") as [_|N]; [|done].
    unfold mbind, M_bind, mret, M_ret. cbv zeta. fold f.
    destruct f as [[b s1] l1]. project. by rewrite app_nil_r.
  - intros Ho f. rewrite Hr. unfold dispatch.
    destruct (String.eqb_spec o "1") as [E|_];
      [rewrite Ho in E; discriminate|].
    destruct (String.eqb_spec o "2") as [_|N]; [|done].
    unfold mbind, M_bind, mret, M_ret. cbv zeta. fold f.
    destruct f as [[b s1] l1]. project. by rewrite app_nil_r.
  - intros Ho.
    assert (r = (Some 0%Z, s, header ++ [Print farewell])) as Hr3.
    { rewrite Hr. unfold dispatch.
      destruct (String.eqb_spec o "1") as [E|_];
        [rewrite Ho in E; discriminate|].
      destruct (String.eqb_spec o "2") as [E|_];
        [rewrite Ho in E; discriminate|].
      by destruct (String.eqb_spec o "3"). }
    rewrite Hr3. project. split; [done|]. split; [done|]. split; [done|].
    intros rest. rewrite Hloop, Hr3. done.
  - intros H1 H2 H3.
    assert (r = (None, s, header ++ [Print invalid_option])) as Hr4.
    { rewrite Hr. unfold dispatch.
      apply String.eqb_neq in H1, H2, H3. by rewrite H1, H2, H3. }
    rewrite Hr4. project. split; [done|]. split; [done|]. split; [done|].
    split.
    + rewrite runs_app. unfold header.
      by destruct (menu_header_run s) as [_ ->].
    + intros rest. rewrite Hloop, Hr4. project. cbv zeta.
      by rewrite <- app_assoc.
  - intros pad1 pad2 digit Hp1 Hp2 Hd.
    assert (digit = Py.text (Py.chars digit)) as Htext.
    { unfold Py.text, Py.chars.
      by rewrite string_of_list_ascii_of_string. }
    rewrite Htext at 2. apply strip_padded; try done.
    + simpl in Hd. by destruct Hd as [<-|[<-|[<-|[]]]].
    + simpl in Hd. by destruct Hd as [<-|[<-|[<-|[]]]].
  - reflexivity.
  - reflexivity.
  - reflexivity.
  - intros rest s'. destruct rest as [|l rest].
    + exists []. by rewrite app_nil_r.
    + rewrite show_menu_cons. cbv zeta. rewrite menu_iteration_run.
      cbv zeta. project.
      destruct (value (dispatch (Py.strip l) s')); project;
        rewrite <- ?app_assoc; by eexists.
Qed.

End Menu.

(** * Further properties of the flows *)

(** Split the membership of an event in a list of events built with
    [::] and [++]. *)
Ltac split_in :=
  repeat match goal with
    | H : False |- _ => destruct H
    | H : _ \/ _ |- _ => destruct H as [H|H]
    | H : In _ [] |- _ => destruct H
    | H : In _ (_ :: _) |- _ => destruct H as [H|H]
    | H : In _ (_ ++ _) |- _ => apply in_app_or in H; destruct H as [H|H]
    | H : Print _ = Print _ |- _ => injection H as <-
    | H : Run _ = Print _ |- _ => discriminate H
    end.

Section FlowResults.

Context {St : Type} {host : Host St}.

(** No text the Command Runner hands to [print] starts with the stop
    sign. *)
Lemma ejecutar_comando_lines (comando : list string) (ok err : string)
    (s : St) (l : string) :
  In (Print l) (events (ejecutar_comando comando ok err s)) ->
  Py.startswith "🛑" l = false.
Proof.
  unfold ejecutar_comando, subprocess_run; unfold_M.
  destruct (popen _ s) as [[rc out e| | |t] s']; simpl.
  - destruct (rc =? 0)%Z; simpl; [|destruct (Py.truthy e); simpl];
      intros H; split_in; reflexivity.
  - intros H; split_in; reflexivity.
  - intros H; split_in; reflexivity.
  - intros H; split_in; reflexivity.
Qed.

(** X1. [verify_and_install_pip_compile] returns [true] exactly when the
    environment directory exists and the installation of pip-tools exits
    with status 0.  Without the directory it prints its own guidance
    message, runs nothing and leaves the state; with it, it runs that one
    command, leaves the state the launch leaves, and when the command
    fails its last line is the "stopping" message. *)
Theorem verify_and_install_pip_compile_result (s : St) :
  let r := verify_and_install_pip_compile s in
  let first := popen (runner_call pip_tools_command) s in
  (value r = true <->
     os_path_isdir s VENV_DIR = true
     /\ exists out e, first.1 = Exited 0 out e)
  /\ (os_path_isdir s VENV_DIR = false ->
        r = (false, s, [Print verify_no_venv_line]))
  /\ (os_path_isdir s VENV_DIR = true ->
        runs (events r) = [pip_tools_command]
        /\ final r = first.2
        /\ (value r = false ->
              List.last (events r) (Print "") = Print stopping_line)).
Proof.
  intros r first. subst r.
  rewrite verify_and_install_pip_compile_steps.
  destruct (os_path_isdir s VENV_DIR); cbv zeta; project.
  - split; [|split; [done|]].
    + unfold pip_tools_run. rewrite ejecutar_comando_value. subst first.
      split; [by split | by intros [_ ?]].
    + intros _. split; [|split].
      * simpl. rewrite runs_app. unfold pip_tools_run.
        rewrite ejecutar_comando_runs.
        by destruct (value (ejecutar_comando _ _ _ s)).
      * apply ejecutar_comando_final.
      * intros ->.
        change (Print ensuring_line :: Print attempting_line
                  :: events (pip_tools_run s) ++ [Print stopping_line])
          with ((Print ensuring_line :: Print attempting_line
                   :: events (pip_tools_run s)) ++ [Print stopping_line]).
        apply last_last.
  - split; [|split; [done|done]].
    split; [done|]. by intros [? _].
Qed.

(** X2. The creation flow returns [true] exactly when the environment
    directory exists with its interpreter inside, or does not exist and
    the creation command exits with status 0. *)
Theorem create_virtual_environment_result (s : St) :
  value (create_virtual_environment s) = true
  <-> (os_path_isdir s VENV_DIR = true
       /\ os_path_exists s obtener_python_venv = true)
      \/ (os_path_isdir s VENV_DIR = false
          /\ exists out e,
               (popen (runner_call create_command) s).1 = Exited 0 out e).
Proof.
  rewrite create_virtual_environment_steps.
  destruct (os_path_isdir s VENV_DIR).
  - destruct (os_path_exists s obtener_python_venv); project.
    + split; [by left | done].
    + split; [done | by intros [[_ ?]|[? _]]].
  - cbv zeta. unfold create_run at 1.
    destruct (value (ejecutar_comando create_command _ _ s)) eqn:Hv;
      project.
    + apply ejecutar_comando_value in Hv. split; [by right | done].
    + split; [done|]. intros [[? _]|[_ Hex]]; [done|].
      rewrite (proj2 (ejecutar_comando_value _ _ _ _) Hex) in Hv. done.
Qed.

(** X3. The installation from the lock file is run exactly when the
    environment directory exists, the installation of pip-tools and the
    compilation both return [true], and [requirements.txt] exists in the
    state the compilation leaves. *)
Theorem install_command_runs_iff (s : St) :
  let r1 := pip_tools_run s in
  let found := os_path_exists (final r1) pip_compile_venv in
  let r2 := compile_run found (final r1) in
  In install_command (runs (events (install_requirements s)))
  <-> os_path_isdir s VENV_DIR = true
      /\ value r1 = true
      /\ value r2 = true
      /\ os_path_exists (final r2) "requirements.txt" = true.
Proof.
  intros r1 found r2.
  rewrite install_requirements_steps. cbv zeta. fold r1. fold found. fold r2.
  destruct (os_path_isdir s VENV_DIR);
    [|split; [intros [] | by intros [? _]]].
  destruct (value r1) eqn:H1.
  - destruct (value r2) eqn:H2.
    + destruct (os_path_exists (final r2) "requirements.txt"); project.
      * split; [done|]. intros _.
        rewrite runs_app. apply in_or_app. right. simpl.
        unfold install_run. rewrite ejecutar_comando_runs. by left.
      * split; [|by intros (_ & _ & _ & ?)].
        rewrite runs_app, through_compile_runs. simpl.
        intros H. by destruct (install_command_not_earlier _ H).
    + project. split; [|by intros (_ & _ & ? & _)].
      rewrite through_compile_runs.
      intros H. by destruct (install_command_not_earlier _ H).
  - project. split; [|by intros (_ & ? & _)].
    simpl. rewrite runs_app. subst r1. unfold pip_tools_run.
    rewrite ejecutar_comando_runs. simpl.
    unfold install_command, pip_tools_command, obtener_pip_venv. simpl.
    intros [H|[]]. discriminate H.
Qed.

(** X4. The directory check inside [verify_and_install_pip_compile] never
    fails when the function is called from [install_requirements]: no
    [print] call of the installation flow has the message of that check
    as its text.  Called on its own without the directory the function
    prints exactly that message, where the flow prints its own guidance
    message instead. *)
Theorem install_requirements_inner_check_dead (s : St) :
  ~ In (Print verify_no_venv_line) (events (install_requirements s))
  /\ (os_path_isdir s VENV_DIR = false ->
      events (verify_and_install_pip_compile s) = [Print verify_no_venv_line]
      /\ events (install_requirements s) = [Print error_msg_no_venv]
      /\ error_msg_no_venv <> verify_no_venv_line).
Proof.
  assert (forall l, In (Print l) (events (install_requirements s)) ->
                    Py.startswith "🛑" l = false) as Htexts.
  { intros l. rewrite install_requirements_steps. cbv zeta.
    unfold through_compile. cbv zeta.
    destruct (os_path_isdir s VENV_DIR); [|project; intros H; by split_in].
    destruct (value (pip_tools_run s)).
    - destruct (value (compile_run _ _));
        [destruct (os_path_exists _ "requirements.txt")|];
        destruct (os_path_exists _ pip_compile_venv);
        project; intros H; split_in;
        try reflexivity; try discriminate;
        by eapply ejecutar_comando_lines.
    - project. intros H; split_in; try reflexivity; try discriminate;
        by eapply ejecutar_comando_lines. }
  split.
  - intros H. apply Htexts in H. discriminate H.
  - intros Hd.
    rewrite verify_and_install_pip_compile_steps, install_requirements_steps.
    rewrite Hd. project. by repeat split.
Qed.

End FlowResults.

(** * Whole sessions *)

Section Sessions.

Context {St : Type} {host : Host St}.

Lemma menu_iteration_no_option (line : string) (s : St) :
  no_option line -> menu_iteration line s = (None, s, invalid_turn s).
Proof.
  intros (H1 & H2 & H3). rewrite menu_iteration_run, dispatch_run.
  apply String.eqb_neq in H1, H2, H3. by rewrite H1, H2, H3.
Qed.


(** X6. A session in which no line selects an option runs no command and
    leaves the state as it is: every line gets the menu and the
    invalid-option message, and the session ends with one more menu and
    the [EOFError] of [input]. *)
Theorem show_menu_no_option (stdin : list string) (s : St) :
  Forall no_option stdin ->
  show_menu stdin s
  = (EOFError, s,
     concat (List.map (fun _ => invalid_turn s) stdin)
     ++ events (menu_header s))
  /\ runs (events (show_menu stdin s)) = [].
Proof.
  intros Hall.
  assert (show_menu stdin s
          = (EOFError, s,
             concat (List.map (fun _ => invalid_turn s) stdin)
             ++ events (menu_header s))) as Heq.
  { induction Hall as [|line rest Hline _ IH]; [done|].
    rewrite show_menu_cons. cbv zeta.
    rewrite (menu_iteration_no_option _ _ Hline). project.
    rewrite IH. project. by rewrite map_cons, concat_cons, <- app_assoc. }
  split; [exact Heq|]. rewrite Heq. project.
  rewrite runs_app.
  assert (runs (events (menu_header s)) = []) as -> by done.
  rewrite app_nil_r. clear.
  induction stdin as [|line rest IH]; [done|].
  rewrite map_cons, concat_cons, runs_app, IH.
  unfold invalid_turn. by rewrite runs_app.
Qed.

(** X7. Sessions compose: when no line of [before] strips to ["3"], the
    session on [before ++ after] ends as the session on [after] started
    in the state the session on [before] leaves, and its commands are
    those of the first followed by those of the second. *)
Theorem show_menu_app (before after : list string) (s : St) :
  Forall (fun line => Py.strip line <> "3") before ->
  let r1 := show_menu before s in
  let r2 := show_menu after (final r1) in
  let r := show_menu (before ++ after) s in
  value r = value r2
  /\ final r = final r2
  /\ runs (events r) = runs (events r1) ++ runs (events r2).
Proof.
  intros Hall. cbv zeta. revert s.
  induction Hall as [|line rest Hline _ IH]; intros s.
  - done.
  - change ((line :: rest) ++ after) with (line :: (rest ++ after)).
    rewrite (show_menu_cons line (rest ++ after)), (show_menu_cons line rest).
    cbv zeta. rewrite menu_iteration_value.
    apply String.eqb_neq in Hline. rewrite Hline. project.
    destruct (IH (final (menu_iteration line s))) as (Hv & Hf & Hr).
    split; [done|]. split; [done|].
    by rewrite !runs_app, Hr, app_assoc.
Qed.

Lemma in_order_prints (lines : list string) :
  Forall in_order (List.map Print lines).
Proof. induction lines; simpl; by constructor. Qed.

Lemma ejecutar_comando_in_order (comando : list string) (ok err : string)
    (s : St) :
  In comando known_commands ->
  Forall in_order (events (ejecutar_comando comando ok err s)).
Proof.
  intros Hin.
  destruct (ejecutar_comando_events comando ok err s) as [lines ->].
  constructor; [done|]. constructor; [by split|]. apply in_order_prints.
Qed.

Lemma create_virtual_environment_in_order (s : St) :
  Forall in_order (events (create_virtual_environment s)).
Proof.
  rewrite create_virtual_environment_steps.
  destruct (os_path_isdir s VENV_DIR).
  { destruct (os_path_exists _ _); project; by repeat constructor. }
  cbv zeta. destruct (value (create_run s)); project.
  - apply Forall_app. split; [|constructor; [done|]];
      apply ejecutar_comando_in_order; simpl; tauto.
  - apply ejecutar_comando_in_order; simpl; tauto.
Qed.

Lemma install_requirements_in_order (s : St) :
  Forall in_order (events (install_requirements s)).
Proof.
  assert (forall found s', Forall in_order (events (compile_run found s')))
    as Hcompile.
  { intros [] s'; apply ejecutar_comando_in_order; simpl; tauto. }
  assert (Forall in_order (events (pip_tools_run s))) as Hpip.
  { apply ejecutar_comando_in_order; simpl; tauto. }
  assert (Forall in_order (through_compile s)) as Hthrough.
  { unfold through_compile. cbv zeta.
    constructor; [done|]. constructor; [done|].
    apply Forall_app. split; [done|]. apply Forall_app. split.
    - destruct (os_path_exists _ _); by repeat constructor.
    - constructor; [done|]. apply Hcompile. }
  rewrite install_requirements_steps.
  destruct (os_path_isdir s VENV_DIR); [|by repeat constructor].
  cbv zeta. destruct (value (pip_tools_run s)); project.
  - destruct (value (compile_run _ _)); project; [|done].
    destruct (os_path_exists _ "requirements.txt"); project;
      apply Forall_app; (split; [done|]).
    + constructor; [done|]. apply ejecutar_comando_in_order; simpl; tauto.
    + by repeat constructor.
  - constructor; [done|]. constructor; [done|].
    apply Forall_app. split; [done|]. by repeat constructor.
Qed.

(** X8. Every launch of a session is a Command Runner call: checked, in
    text mode, with output captured and the time limit of 120, and its
    command is one of the six the script builds. *)
Theorem show_menu_in_order (stdin : list string) (s : St) :
  Forall in_order (events (show_menu stdin s))
  /\ (forall a, In (Run a) (events (show_menu stdin s)) ->
        timeout a = 120%Z /\ capture_output a = true /\ check a = true
        /\ text_mode a = true /\ In (argv a) known_commands).
Proof.
  assert (Forall in_order (events (show_menu stdin s))) as Hall.
  { revert s. induction stdin as [|line rest IH]; intros s.
    - simpl. by repeat constructor.
    - rewrite show_menu_cons. cbv zeta.
      assert (Forall in_order (events (menu_iteration line s))) as Hturn.
      { rewrite menu_iteration_run, dispatch_run. cbv zeta.
        destruct (String.eqb _ "1"); [|destruct (String.eqb _ "2");
          [|destruct (String.eqb _ "3")]]; project;
          apply Forall_app; (split; [simpl; by repeat constructor|]).
        - apply create_virtual_environment_in_order.
        - apply install_requirements_in_order.
        - by repeat constructor.
        - by repeat constructor. }
      destruct (value (menu_iteration line s)); project; [done|].
      apply Forall_app. split; [done|]. apply IH. }
  split; [exact Hall|].
  intros a Hin. rewrite List.Forall_forall in Hall.
  destruct (Hall _ Hin) as [Ha Hknown].
  rewrite Ha. by repeat split.
Qed.

Lemma ejecutar_comando_keeps (P : St -> Prop) (comando : list string)
    (ok err : string) (s : St) :
  (forall a s', P s' -> P (popen a s').2) ->
  P s -> P (final (ejecutar_comando comando ok err s)).
Proof. intros Hpopen Hs. rewrite ejecutar_comando_final. by apply Hpopen. Qed.

(** X9. The script changes the state only through the processes it
    launches: a property of the state that every launch preserves still
    holds at the end of any session.  In particular, if no launch changes
    the state the session leaves it as it was. *)
Theorem show_menu_keeps (P : St -> Prop) (stdin : list string) (s : St) :
  (forall a s', P s' -> P (popen a s').2) ->
  P s ->
  P (final (show_menu stdin s)).
Proof.
  intros Hpopen. revert s.
  assert (forall s, P s -> P (final (create_virtual_environment s)))
    as Hcreate.
  { intros s Hs. rewrite create_virtual_environment_steps.
    destruct (os_path_isdir s VENV_DIR).
    { by destruct (os_path_exists _ _). }
    cbv zeta. destruct (value (create_run s)); project;
      unfold update_run, create_run; by repeat apply ejecutar_comando_keeps. }
  assert (forall s, P s -> P (final (install_requirements s))) as Hinstall.
  { intros s Hs. rewrite install_requirements_steps.
    destruct (os_path_isdir s VENV_DIR); [|done].
    cbv zeta. destruct (value (pip_tools_run s)); project.
    - destruct (value (compile_run _ _)); project;
        [destruct (os_path_exists _ "requirements.txt"); project|];
        unfold install_run, compile_run, pip_tools_run;
        by repeat apply ejecutar_comando_keeps.
    - unfold pip_tools_run. by apply ejecutar_comando_keeps. }
  induction stdin as [|line rest IH]; intros s Hs; [done|].
  rewrite show_menu_cons. cbv zeta.
  assert (P (final (menu_iteration line s))) as Hturn.
  { rewrite menu_iteration_run, dispatch_run. cbv zeta.
    destruct (String.eqb _ "1"); [by apply Hcreate|].
    destruct (String.eqb _ "2"); [by apply Hinstall|].
    by destruct (String.eqb _ "3"). }
  destruct (value (menu_iteration line s)); project; [done|].
  by apply IH.
Qed.

(** X10. An empty line, or a line of ASCII white space only, selects no
    option: the turn prints the invalid-option message, runs nothing and
    leaves the state. *)
Theorem menu_iteration_blank (pad : list ascii) (s : St) :
  spaces pad ->
  Py.strip (Py.text pad) = ""
  /\ menu_iteration (Py.text pad) s = (None, s, invalid_turn s).
Proof.
  intros Hpad.
  assert (Py.strip (Py.text pad) = "") as Hstrip.
  { pose proof (strip_padded pad [] [] Hpad) as H.
    rewrite !app_nil_r in H. apply H; by constructor. }
  split; [exact Hstrip|].
  apply menu_iteration_no_option. unfold no_option. by rewrite Hstrip.
Qed.

(** X11. The Command Runner tests the captured stderr before stripping
    it: after a non-zero exit with a stderr that is not empty but holds
    only ASCII white space, it still prints the details line, and nothing
    follows the heading in it. *)
Theorem ejecutar_comando_blank_stderr (comando : list string)
    (ok err : string) (s s' : St) (rc : Z) (out : string)
    (c : ascii) (pad : list ascii) :
  spaces (c :: pad) ->
  rc <> 0%Z ->
  popen (runner_call comando) s = (Exited rc out (Py.text (c :: pad)), s') ->
  ejecutar_comando comando ok err s
  = (false, s',
     [Print (executing comando); Run (runner_call comando);
      Print ("❌ Error! " +:+ err);
      Print ("Error details (stderr): " +:+ Py.nl)]).
Proof.
  intros Hpad Hrc Hpopen.
  assert (Py.strip (Py.text (c :: pad)) = "") as Hstrip.
  { pose proof (strip_padded (c :: pad) [] [] Hpad) as H.
    rewrite !app_nil_r in H. apply H; by constructor. }
  unfold ejecutar_comando, subprocess_run, runner_call, executing in *;
    unfold_M.
  rewrite Hpopen. apply Z.eqb_neq in Hrc. rewrite Hrc.
  cbn [check andb negb]. project. cbv iota beta.
  change (Py.truthy (Py.text (c :: pad))) with true. cbv iota.
  rewrite Hstrip. reflexivity.
Qed.

End Sessions.

(** * What the console tells *)

Section Console.

Context {St : Type} {host : Host St}.

(** The mark of the outcome is always printed. *)
Lemma ejecutar_comando_reports (comando : list string) (ok err : string)
    (s : St) :
  let r := ejecutar_comando comando ok err s in
  (value r = true -> marked "✅" (events r))
  /\ (value r = false -> marked "❌" (events r)).
Proof.
  cbv zeta. unfold marked, ejecutar_comando, subprocess_run; unfold_M.
  destruct (popen _ s) as [[rc out e| | |t] s']; simpl;
    [destruct (rc =? 0)%Z; simpl; [|destruct (Py.truthy e); simpl]|..];
    split;
    first
      [ done
      | intros _; eexists; split; [right; right; left; reflexivity|];
        reflexivity ].
Qed.

(** X12. The Command Runner marks its outcome.  The text it prints right
    after the launch, which starts a console line since the "Executing"
    text before it was printed with its line break, begins with the check
    mark exactly when it returns [true] and with the cross exactly when
    it returns [false].  Likewise, among all its [print] calls one has a
    text starting with the check mark (the cross) exactly when it returns
    [true] ([false]), whatever the command and the two messages are.
    The second statement is about the start of the text of a call, not
    of every console line: the captured stderr is printed inside the
    details call, after its heading and a line break. *)
Theorem ejecutar_comando_marks (comando : list string) (ok err : string)
    (s : St) :
  let r := ejecutar_comando comando ok err s in
  (value r = true <-> marked "✅" (events r))
  /\ (value r = false <-> marked "❌" (events r))
  /\ (exists first rest,
        events r
        = Print (executing comando) :: Run (runner_call comando)
            :: Print first :: rest
        /\ (value r = true <-> Py.startswith "✅" first = true)
        /\ (value r = false <-> Py.startswith "❌" first = true)).
Proof.
  cbv zeta. split; [|split].
  - unfold marked, ejecutar_comando, subprocess_run; unfold_M.
    destruct (popen _ s) as [[rc out e| | |t] s']; simpl;
      [destruct (rc =? 0)%Z; simpl; [|destruct (Py.truthy e); simpl]|..];
      split;
      first
        [ done
        | intros _; eexists; split; [right; right; left; reflexivity|];
          reflexivity
        | intros (line & Hin & Hst); split_in; simpl in Hst;
          discriminate Hst ].
  - unfold marked, ejecutar_comando, subprocess_run; unfold_M.
    destruct (popen _ s) as [[rc out e| | |t] s']; simpl;
      [destruct (rc =? 0)%Z; simpl; [|destruct (Py.truthy e); simpl]|..];
      split;
      first
        [ done
        | intros _; eexists; split; [right; right; left; reflexivity|];
          reflexivity
        | intros (line & Hin & Hst); split_in; simpl in Hst;
          discriminate Hst ].
  - unfold ejecutar_comando, subprocess_run, runner_call, executing;
      unfold_M.
    destruct (popen _ s) as [[rc out e| | |t] s']; simpl;
      [destruct (rc =? 0)%Z; simpl; [|destruct (Py.truthy e); simpl]|..];
      eexists _, _; (split; [reflexivity|]); simpl; by repeat split.
Qed.

Lemma marked_app_l (mark : string) (l1 l2 : list event) :
  marked mark l1 -> marked mark (l1 ++ l2).
Proof.
  intros (line & Hin & Hst). exists line. split; [|done].
  apply in_or_app. by left.
Qed.

(** X13. The creation flow never fails silently and never succeeds
    silently: when it returns [false] a line starting with the cross has
    been printed, and when it returns [true] a line starting with the
    check mark has. *)
Theorem create_virtual_environment_marks (s : St) :
  let r := create_virtual_environment s in
  (value r = false -> marked "❌" (events r))
  /\ (value r = true -> marked "✅" (events r)).
Proof.
  cbv zeta. rewrite create_virtual_environment_steps.
  destruct (os_path_isdir s VENV_DIR).
  - destruct (os_path_exists s obtener_python_venv); project.
    + split; [done|]. intros _. exists valid_line.
      split; [right; by left | done].
    + split; [|done]. intros _. exists invalid_line.
      split; [right; by left | done].
  - cbv zeta. destruct (value (create_run s)) eqn:Hv; project.
    + split; [done|]. intros _. apply marked_app_l.
      by apply (ejecutar_comando_reports create_command).
    + split; [|done]. intros _.
      by apply (ejecutar_comando_reports create_command).
Qed.

(** X14. The two flows agree on an environment whose interpreter exists:
    the creation flow reports it as valid without running anything, and
    the installation flow passes its check, so that its first line is the
    pip-tools heading and its first command the pip-tools
    installation. *)
Theorem flows_agree_on_interpreter (s : St) :
  os_path_exists s obtener_python_venv = true ->
  create_virtual_environment s
  = (true, s, [Print skipping_line; Print valid_line])
  /\ hd_error (events (install_requirements s)) = Some (Print ensuring_line)
  /\ hd_error (runs (events (install_requirements s)))
     = Some pip_tools_command.
Proof.
  intros Hpy. pose proof (python_inside_venv s Hpy) as Hd.
  split; [|split].
  - by rewrite create_virtual_environment_steps, Hd, Hpy.
  - rewrite install_requirements_steps, Hd. cbv zeta.
    unfold through_compile. cbv zeta.
    destruct (value (pip_tools_run s)); project; [|done].
    destruct (value (compile_run _ _)); project; [|done].
    by destruct (os_path_exists _ "requirements.txt").
  - rewrite install_requirements_steps, Hd. cbv zeta.
    destruct (value (pip_tools_run s)); project.
    + destruct (value (compile_run _ _)); project;
        [destruct (os_path_exists _ "requirements.txt"); project|];
        by rewrite ?runs_app, through_compile_runs.
    + simpl. rewrite runs_app. unfold pip_tools_run.
      by rewrite ejecutar_comando_runs.
Qed.

End Console.

(** * The script on the simulated hosts *)

(** Scenario A and C of the specification on Linux: options 1, 2 and 3. *)
Example scenario_linux :
  let r := show_menu (host := Sim.linux) ["1"; "2"; "3"] Sim.project in
  value r = SystemExit 0
  /\ runs (events r)
     = [["/usr/bin/python3"; "-m"; "venv"; ".venv"];
        [".venv/bin/python"; "-m"; "pip"; "install"; "--upgrade"; "pip";
         "setuptools"];
        [".venv/bin/python"; "-m"; "pip"; "install"; "pip-tools"];
        [".venv/bin/pip-compile"; "requirements.in"];
        [".venv/bin/python"; "-m"; "pip"; "install"; "-r";
         "requirements.txt"]].
Proof. vm_compute. done. Qed.

(** The same on Windows, with padded input and a wrong option. *)
Example scenario_windows :
  let r := show_menu (host := Sim.windows) [" 1"; "2 "; "x"; "3"; "1"]
             Sim.project in
  value r = SystemExit 0
  /\ runs (events r)
     = [["C:\Python312\python.exe"; "-m"; "venv"; ".venv"];
        [".venv\Scripts\python.exe"; "-m"; "pip"; "install"; "--upgrade";
         "pip"; "setuptools"];
        [".venv\Scripts\python.exe"; "-m"; "pip"; "install"; "pip-tools"];
        [".venv\Scripts\pip-compile.exe"; "requirements.in"];
        [".venv\Scripts\python.exe"; "-m"; "pip"; "install"; "-r";
         "requirements.txt"]].
Proof. vm_compute. done. Qed.

(** When the input ends before option 3, [input] raises. *)
Example scenario_end_of_input :
  value (show_menu (host := Sim.linux) ["7"] Sim.project) = EOFError.
Proof. vm_compute. done. Qed.

(** What the Command Runner prints for a failed compilation. *)
Example failed_compile_output :
  printed (events (compile_run (host := Sim.linux) false linux_env))
  = [executing [".venv/bin/python"; "-m"; "piptools"; "compile";
                "requirements.in"];
     "❌ Error! Could not compile 'requirements.in'. Ensure 'requirements.in' exists.";
     "Error details (stderr): " +:+ Py.nl
     +:+ "Error: Path 'requirements.in' does not exist."].
Proof. vm_compute. done. Qed.

(** [strip] on padding that is not ASCII: a no-break space before and an
    ideographic space after the digit. *)
Example strip_unicode_padding :
  Py.strip (String "194" (String "160"
             (String "2" (String "227" (String "128" (String "128" ""))))))
  = "2".
Proof. vm_compute. done. Qed.

(** * Instances of the theorems *)

(** Unless said otherwise, the host is the simulated Linux machine. *)
#[local] Existing Instance Sim.linux.

Lemma ejecutar_comando_outcomes_witness :
  value (ejecutar_comando (host := Sim.linux) create_command "made" "failed"
           Sim.fresh) = true.
Proof.
  destruct (ejecutar_comando_outcomes (host := Sim.linux) create_command
              "made" "failed" Sim.fresh) as (_ & _ & _ & _ & _ & [_ H] & _).
  apply H. exists "", "". vm_compute. reflexivity.
Defined.

Lemma create_virtual_environment_idempotent_witness :
  create_virtual_environment (host := Sim.linux) linux_env
  = (true, linux_env, [Print skipping_line; Print valid_line]).
Proof.
  apply (proj2 (create_virtual_environment_idempotent (host := Sim.linux)
                  Sim.fresh)).
  - vm_compute. reflexivity.
  - vm_compute. reflexivity.
Defined.

Lemma create_virtual_environment_upgrade_witness :
  let s := Sim.offline Sim.fresh in
  value (update_run (host := Sim.linux)
           (final (create_run (host := Sim.linux) s))) = false
  /\ value (create_virtual_environment (host := Sim.linux) s) = true
  /\ runs (events (create_virtual_environment (host := Sim.linux) s))
     = [create_command; update_command].
Proof.
  intros s. split; [vm_compute; reflexivity|].
  assert (os_path_isdir s VENV_DIR = false) as Hd
    by (vm_compute; reflexivity).
  destruct (create_virtual_environment_upgrade (host := Sim.linux) s Hd)
    as (_ & Hok & _).
  destruct Hok as (Hv & _ & Hr & _); [vm_compute; reflexivity|].
  split; [exact Hv | exact Hr].
Defined.


Lemma install_requirements_compile_failed_witness :
  runs (events (install_requirements (host := Sim.linux) linux_env))
  = [pip_tools_command; compile_command true].
Proof.
  assert (os_path_exists
            (final (pip_tools_run (host := Sim.linux) linux_env))
            pip_compile_venv = true) as Hfound
    by (vm_compute; reflexivity).
  rewrite <- Hfound.
  apply (install_requirements_compile_failed (host := Sim.linux) linux_env).
  - vm_compute. reflexivity.
  - vm_compute. reflexivity.
  - vm_compute. reflexivity.
Defined.



Lemma menu_iteration_dispatch_witness :
  (forall rest,
     show_menu (host := Sim.linux) (" 3 " :: rest) Sim.project
     = (SystemExit 0, Sim.project,
        events (menu_header Sim.project)
        ++ [Print farewell]))
  /\ runs (events (menu_iteration (host := Sim.linux) "4" Sim.project)) = [].
Proof.
  split.
  - destruct (menu_iteration_dispatch (host := Sim.linux) " 3 " Sim.project)
      as (_ & _ & H3 & _).
    destruct H3 as (_ & _ & _ & Hloop); [vm_compute; reflexivity|].
    exact Hloop.
  - destruct (menu_iteration_dispatch (host := Sim.linux) "4" Sim.project)
      as (_ & _ & _ & H4 & _).
    destruct H4 as (_ & _ & _ & Hruns & _);
      [vm_compute; discriminate ..|].
    exact Hruns.
Defined.

Lemma pip_only_inside_venv_witness :
  In [".venv/bin/python"; "-m"; "pip"; "install"; "--upgrade"; "pip";
      "setuptools"]
    (runs (events (create_virtual_environment Sim.project))
     ++ runs (events (install_requirements Sim.project)))
  /\ ".venv/bin/python" = obtener_python_venv.
Proof.
  assert (In [".venv/bin/python"; "-m"; "pip"; "install"; "--upgrade"; "pip";
              "setuptools"]
            (runs (events (create_virtual_environment Sim.project))
             ++ runs (events (install_requirements Sim.project)))) as Hin.
  { vm_compute. right. left. reflexivity. }
  split; [exact Hin|].
  destruct (pip_only_inside_venv (host := Sim.linux) Sim.project)
    as (_ & _ & _ & _ & _ & _ & H).
  exact (H _ _ Hin).
Defined.

Lemma install_requirements_prerequisite_witness :
  runs (events (install_requirements (host := Sim.linux) Sim.gutted))
  = [pip_tools_command]
  /\ final (install_requirements (host := Sim.linux) Sim.gutted) = Sim.gutted.
Proof.
  destruct (install_requirements_prerequisite (host := Sim.linux) Sim.gutted)
    as (_ & H).
  destruct H as (_ & _ & Hfail & _); [vm_compute; reflexivity|].
  apply Hfail. intros out e. vm_compute. discriminate.
Defined.

(** C2 as the specification states it fails: with an environment
    directory that holds no interpreter, the installation flow passes its
    check and hands a command to the Command Runner. *)
Lemma install_requirements_without_interpreter :
  os_path_isdir (Host := Sim.linux) Sim.gutted VENV_DIR = true
  /\ os_path_exists (Host := Sim.linux) Sim.gutted
       (obtener_python_venv (host := Sim.linux)) = false
  /\ events (install_requirements (host := Sim.linux) Sim.gutted)
     = [Print ensuring_line; Print attempting_line;
        Print (executing [".venv/bin/python"; "-m"; "pip"; "install";
                          "pip-tools"]);
        Run (runner_call [".venv/bin/python"; "-m"; "pip"; "install";
                          "pip-tools"]);
        Print not_found_line;
        Print "Attempted command: .venv/bin/python -m pip install pip-tools";
        Print stopping_line]
  /\ ~ (forall s : Sim.state,
          runs (events (install_requirements (host := Sim.linux) s)) <> [] ->
          os_path_exists (Host := Sim.linux) s
            (obtener_python_venv (host := Sim.linux)) = true).
Proof.
  split; [vm_compute; reflexivity|].
  split; [vm_compute; reflexivity|].
  split; [vm_compute; reflexivity|].
  intros H. specialize (H Sim.gutted).
  assert (os_path_exists (Host := Sim.linux) Sim.gutted
            (obtener_python_venv (host := Sim.linux)) = false) as Hno
    by (vm_compute; reflexivity).
  rewrite H in Hno; [discriminate|].
  vm_compute. discriminate.
Qed.

(** * Instances of the further properties *)

Lemma verify_and_install_pip_compile_result_witness :
  value (verify_and_install_pip_compile linux_env) = true
  /\ verify_and_install_pip_compile Sim.project
     = (false, Sim.project, [Print verify_no_venv_line]).
Proof.
  split.
  - apply (proj1 (verify_and_install_pip_compile_result linux_env)).
    split; [vm_compute; reflexivity|].
    exists "", "". vm_compute. reflexivity.
  - apply (proj2 (verify_and_install_pip_compile_result Sim.project)).
    vm_compute. reflexivity.
Defined.

Lemma create_virtual_environment_result_witness :
  value (create_virtual_environment Sim.fresh) = true
  /\ value (create_virtual_environment linux_env) = true.
Proof.
  split.
  - apply (create_virtual_environment_result Sim.fresh). right.
    split; [vm_compute; reflexivity|].
    exists "", "". vm_compute. reflexivity.
  - apply (create_virtual_environment_result linux_env). left.
    split; vm_compute; reflexivity.
Defined.

Lemma install_command_runs_iff_witness :
  In install_command (runs (events (install_requirements linux_project_env))).
Proof.
  apply (install_command_runs_iff linux_project_env).
  repeat split; vm_compute; reflexivity.
Defined.

Lemma install_requirements_inner_check_dead_witness :
  events (verify_and_install_pip_compile Sim.project)
  = [Print verify_no_venv_line]
  /\ events (install_requirements Sim.project) = [Print error_msg_no_venv].
Proof.
  destruct (install_requirements_inner_check_dead Sim.project) as [_ H].
  destruct H as (Hv & Hi & _); [vm_compute; reflexivity|].
  split; [exact Hv | exact Hi].
Defined.


Lemma show_menu_no_option_witness :
  runs (events (show_menu [""; "x"; "1 2"; "٣"] Sim.project)) = []
  /\ final (show_menu [""; "x"; "1 2"; "٣"] Sim.project) = Sim.project.
Proof.
  assert (Forall no_option [""; "x"; "1 2"; "٣"]) as Hall.
  { repeat constructor; vm_compute; discriminate. }
  destruct (show_menu_no_option _ Sim.project Hall) as [Heq Hruns].
  split; [exact Hruns|]. rewrite Heq. reflexivity.
Defined.

Lemma show_menu_app_witness :
  value (show_menu (["1"] ++ ["2"; "3"]) Sim.project)
  = value (show_menu ["2"; "3"] linux_project_env).
Proof.
  assert (final (show_menu ["1"] Sim.project) = linux_project_env) as <-
    by (vm_compute; reflexivity).
  apply (show_menu_app ["1"] ["2"; "3"] Sim.project).
  repeat constructor; vm_compute; discriminate.
Defined.

Lemma show_menu_in_order_witness :
  timeout (runner_call pip_tools_command) = 120%Z
  /\ In pip_tools_command known_commands.
Proof.
  destruct (show_menu_in_order ["2"] linux_env) as [_ H].
  destruct (H (runner_call pip_tools_command)) as (Ht & _ & _ & _ & Hk).
  - vm_compute. do 11 right. left. reflexivity.
  - split; [exact Ht | exact Hk].
Defined.

Lemma show_menu_keeps_witness :
  final (show_menu (host := canned (Exited 0 "" "")) ["1"; "2"; "3"]
           Sim.project)
  = Sim.project.
Proof.
  apply (show_menu_keeps (host := canned (Exited 0 "" ""))
           (fun s => s = Sim.project)).
  - intros a s' Hs'. exact Hs'.
  - reflexivity.
Defined.

Lemma menu_iteration_blank_witness :
  menu_iteration (String " " (String "009" "")) Sim.project
  = (None, Sim.project, invalid_turn Sim.project).
Proof.
  apply (menu_iteration_blank [" "%char; "009"%char] Sim.project).
  repeat constructor.
Defined.

Lemma ejecutar_comando_blank_stderr_witness :
  printed (events (ejecutar_comando
                     (host := canned (Exited 1 "" (String "010" " ")))
                     ["tool"] "done" "failed" Sim.project))
  = [executing ["tool"]; "❌ Error! failed";
     "Error details (stderr): " +:+ Py.nl].
Proof.
  rewrite (ejecutar_comando_blank_stderr
             (host := canned (Exited 1 "" (String "010" " ")))
             ["tool"] "done" "failed" Sim.project Sim.project 1 ""
             "010"%char [" "%char]).
  - reflexivity.
  - repeat constructor.
  - discriminate.
  - reflexivity.
Defined.

Lemma ejecutar_comando_marks_witness :
  marked "❌"
    (events (ejecutar_comando pip_tools_command "done" "failed" Sim.gutted)).
Proof.
  apply (ejecutar_comando_marks pip_tools_command "done" "failed" Sim.gutted).
  vm_compute. reflexivity.
Defined.

Lemma create_virtual_environment_marks_witness :
  marked "❌" (events (create_virtual_environment Sim.gutted))
  /\ marked "✅" (events (create_virtual_environment Sim.fresh)).
Proof.
  split.
  - apply (create_virtual_environment_marks Sim.gutted).
    vm_compute. reflexivity.
  - apply (create_virtual_environment_marks Sim.fresh).
    vm_compute. reflexivity.
Defined.

Lemma flows_agree_on_interpreter_witness :
  hd_error (runs (events (install_requirements linux_env)))
  = Some pip_tools_command.
Proof.
  apply (flows_agree_on_interpreter linux_env).
  vm_compute. reflexivity.
Defined.
